(** * NDI Bridge Cloud Rendezvous Service: a shallow embedding

    The development follows the server of the repository (the variant
    with the host registry): three in-memory maps ([sessions],
    [connections], [hosts]), the REST handlers that read and write them,
    the WebSocket signalling handlers ([handleSignal], [forwardSignal],
    [handleDisconnect]) and the UDP reflexive-address responder.

    Every handler is a function from the current state (and the request,
    the clock, the random bytes) to the new state together with what the
    handler sends: an HTTP response, or a list of outgoing messages. *)

From Stdlib Require Import ZArith List String Ascii Bool Lia.
From stdpp Require Import base option list strings gmap fin_maps.

Local Open Scope string_scope.
Local Open Scope list_scope.
Local Open Scope Z_scope.

(** ** JavaScript values reduced to what the handlers look at *)

Module Js.

(** [if (s)] on a string: the empty string is falsy. *)
Definition truthy_str (s : string) : bool :=
  match s with
  | EmptyString => false
  | String _ _ => true
  end.

(** [if (x)] on a field that is a string, [undefined] or [null]. *)
Definition truthy (x : option string) : bool :=
  match x with
  | Some s => truthy_str s
  | None => false
  end.

(** [if (n)] on a field that is a number or missing: 0 is falsy. *)
Definition truthy_num (x : option Z) : bool :=
  match x with
  | Some n => negb (n =? 0)
  | None => false
  end.

(** [a || b] on optional strings. *)
Definition or_else (a b : option string) : option string :=
  if truthy a then a else b.

End Js.

(** ** Code generation

    [generateCode = customAlphabet('ABCDEFGHJKLMNPQRSTUVWXYZ23456789', 6)].
    [customAlphabet] belongs to the nanoid package: for an alphabet of 32
    symbols its mask is 31, and every random byte [b] contributes the
    symbol at index [b & 31]; six bytes give the six symbols.  The random
    bytes are the environment's: a handler receives them as [rnd]. *)

Definition alphabet : list ascii :=
  list_ascii_of_string "ABCDEFGHJKLMNPQRSTUVWXYZ23456789".

Definition code_size : nat := 6.

Definition Entropy := nat → Z.

Definition pick (b : Z) : ascii :=
  nth (Z.to_nat (Z.land b 31)) alphabet "A"%char.

Definition generateCode (rnd : Entropy) : string :=
  string_of_list_ascii (map (λ i, pick (rnd i)) (seq 0 code_size)).

(** A well-formed session code: six symbols, all from the alphabet. *)
Definition valid_code (c : string) : Prop :=
  String.length c = code_size ∧
  Forall (λ a, a ∈ alphabet) (list_ascii_of_string c).

(** ** Data model *)

Inductive Status := Waiting | Active | Closed.

Record Session := mkSession {
  s_code : string;
  s_hostId : option string;
  s_bridgeName : option string;
  s_sources : list string;
  s_host : option string;       (* connection id of the host, or null *)
  s_clients : list string;      (* connection ids, in push order *)
  s_createdAt : Z;
  s_status : Status
}.

Record Connection := mkConnection {
  c_role : option string;
  c_sessionCode : option string
}.

Record Source := mkSource {
  src_name : string;
  src_enabled : bool
}.

Record ConnectionRequest := mkRequest {
  r_clientId : string;
  r_clientName : string;
  r_requestedSource : string;
  r_publicIP : option string;
  r_publicPort : option Z;
  r_requestedAt : Z;
  r_acknowledged : bool
}.

Record Host := mkHost {
  h_hostId : string;
  h_computerName : string;
  h_sources : list Source;
  h_publicIP : option string;
  h_publicPort : Z;
  h_registeredAt : Z;
  h_lastHeartbeat : Z;
  h_connectedClients : list ConnectionRequest
}.

Record State := mkState {
  sessions : gmap string Session;
  connections : gmap string Connection;
  hosts : gmap string Host
}.

Definition init : State := mkState ∅ ∅ ∅.

Definition set_sessions (f : gmap string Session → gmap string Session)
    (st : State) : State :=
  mkState (f (sessions st)) (connections st) (hosts st).

Definition set_connections
    (f : gmap string Connection → gmap string Connection)
    (st : State) : State :=
  mkState (sessions st) (f (connections st)) (hosts st).

Definition set_hosts (f : gmap string Host → gmap string Host)
    (st : State) : State :=
  mkState (sessions st) (connections st) (f (hosts st)).

Definition HOST_TIMEOUT_MS : Z := 45000.
Definition SESSION_TTL_MS : Z := 30 * 60 * 1000.

(** ** HTTP responses *)

Record HostEndpoint := mkEndpoint {
  he_publicIP : option string;
  he_publicPort : Z
}.

Record PendingClient := mkPending {
  p_clientId : string;
  p_clientName : string;
  p_publicIP : option string;
  p_publicPort : option Z;
  p_requestedSource : string
}.

Record HostView := mkHostView {
  v_hostId : string;
  v_computerName : string;
  v_sources : list string;
  v_online : bool;
  v_lastSeen : Z
}.

Inductive Body :=
  | SessionCreated (code : string)
  | HostRegistered (hostId : string) (publicIP : option string)
  | PendingClients (l : list PendingClient)
  | HostList (l : list HostView)
  | ConnectionRequested (clientId : string) (hostEndpoint : HostEndpoint)
  | Plain.                                   (* { success: true } *)

(** [res.json(..)] answers 200 with [success: true];
    [res.status(n).json(..)] answers [n] with [success: false]. *)
Inductive Response :=
  | Ok (b : Body)
  | Err (status : Z) (message : string).

Definition success (r : Response) : bool :=
  match r with
  | Ok _ => true
  | Err _ _ => false
  end.

(** ** Session directory *)

(** POST /api/session/create *)
Definition createSession (hostId bridgeName : option string)
    (sources : option (list string)) (rnd : Entropy) (now : Z)
    (st : State) : State * Response :=
  let code := generateCode rnd in
  let session :=
    {| s_code := code;
       s_hostId := hostId;
       s_bridgeName := bridgeName;
       s_sources := default [] sources;
       s_host := None;
       s_clients := [];
       s_createdAt := now;
       s_status := Waiting |} in
  (set_sessions (insert code session) st, Ok (SessionCreated code)).

(** The session sweep of the first [setInterval]. *)
Definition sessionSweep (now : Z) (st : State) : State :=
  set_sessions
    (filter (λ kv, ¬ (now - s_createdAt kv.2 > SESSION_TTL_MS))) st.

(** ** Host registry *)

Record RegisterHostReq := mkRegisterHostReq {
  rh_hostId : option string;
  rh_computerName : option string;
  rh_sources : option (list Source);   (* [None]: missing or not an array *)
  rh_publicIP : option string;
  rh_publicPort : option Z
}.

(** POST /api/hosts/register.  [clientIP] is what [getClientIP(req)]
    returns and [generated] what [generateHostId()] returns. *)
Definition registerHost (req : RegisterHostReq) (clientIP : option string)
    (generated : string) (now : Z) (st : State) : State * Response :=
  match rh_sources req with
  | None => (st, Err 400 "computerName and sources array required")
  | Some sources =>
    if negb (Js.truthy (rh_computerName req)) then
      (st, Err 400 "computerName and sources array required")
    else
      let id := if Js.truthy (rh_hostId req)
                then default generated (rh_hostId req) else generated in
      let detectedIP := Js.or_else (rh_publicIP req) clientIP in
      let host :=
        {| h_hostId := id;
           h_computerName := default "" (rh_computerName req);
           h_sources := sources;
           h_publicIP := detectedIP;
           h_publicPort := if Js.truthy_num (rh_publicPort req)
                           then default 5961 (rh_publicPort req) else 5961;
           h_registeredAt := match hosts st !! id with
                             | Some old => h_registeredAt old
                             | None => now
                             end;
           h_lastHeartbeat := now;
           h_connectedClients := [] |} in
      (set_hosts (insert id host) st, Ok (HostRegistered id detectedIP))
  end.

Definition pending_view (c : ConnectionRequest) : PendingClient :=
  {| p_clientId := r_clientId c;
     p_clientName := r_clientName c;
     p_publicIP := r_publicIP c;
     p_publicPort := r_publicPort c;
     p_requestedSource := r_requestedSource c |}.

Definition pendingClients (h : Host) : list PendingClient :=
  map pending_view
    (List.filter (λ c, negb (r_acknowledged c)) (h_connectedClients h)).

(** POST /api/hosts/heartbeat/:hostId *)
Definition heartbeat (hostId : string) (publicIP : option string)
    (publicPort : option Z) (sources : option (list Source))
    (clientIP : option string) (now : Z) (st : State) : State * Response :=
  match hosts st !! hostId with
  | None => (st, Err 404 "Host not found. Please re-register.")
  | Some host =>
    let detectedIP := Js.or_else publicIP clientIP in
    let host' :=
      {| h_hostId := h_hostId host;
         h_computerName := h_computerName host;
         h_sources := default (h_sources host) sources;
         h_publicIP := if Js.truthy detectedIP then detectedIP
                       else h_publicIP host;
         h_publicPort := if Js.truthy_num publicPort
                         then default (h_publicPort host) publicPort
                         else h_publicPort host;
         h_registeredAt := h_registeredAt host;
         h_lastHeartbeat := now;
         h_connectedClients := h_connectedClients host |} in
    (set_hosts (insert hostId host') st,
     Ok (PendingClients (pendingClients host')))
  end.

(** DELETE /api/hosts/:hostId *)
Definition deleteHost (hostId : string) (st : State) : State * Response :=
  (set_hosts (delete hostId) st, Ok Plain).

(** The host sweep of the second [setInterval]. *)
Definition hostSweep (now : Z) (st : State) : State :=
  set_hosts
    (filter (λ kv, ¬ (now - h_lastHeartbeat kv.2 > HOST_TIMEOUT_MS))) st.

Definition enabledSources (h : Host) : list Source :=
  List.filter src_enabled (h_sources h).

(** One turn of the loop of GET /api/hosts. *)
Definition available (now : Z) (kv : string * Host) : option HostView :=
  let '(hostId, host) := kv in
  if bool_decide (now - h_lastHeartbeat host < HOST_TIMEOUT_MS) then
    if bool_decide (0 < length (enabledSources host))%nat then
      Some {| v_hostId := hostId;
              v_computerName := h_computerName host;
              v_sources := map src_name (enabledSources host);
              v_online := true;
              v_lastSeen := h_lastHeartbeat host |}
    else None
  else None.

(** GET /api/hosts.  The order of the answer is the iteration order of
    the map, which nothing below depends on. *)
Definition listAvailableHosts (now : Z) (st : State) : list HostView :=
  omap (available now) (map_to_list (hosts st)).

Definition getHosts (now : Z) (st : State) : State * Response :=
  (st, Ok (HostList (listAvailableHosts now st))).

Record ConnectReq := mkConnectReq {
  cr_clientId : option string;
  cr_clientName : option string;
  cr_sourceName : string;
  cr_publicIP : option string;
  cr_publicPort : option Z
}.

(** [host.sources.find(s => s.name === sourceName && s.enabled)] *)
Definition findSource (sourceName : string) (h : Host) : option Source :=
  List.find (λ s, String.eqb (src_name s) sourceName && src_enabled s)
            (h_sources h).

Definition connectionRequest (req : ConnectReq) (rnd : Entropy) (now : Z)
    : ConnectionRequest :=
  {| r_clientId := if Js.truthy (cr_clientId req)
                   then default "" (cr_clientId req) else generateCode rnd;
     r_clientName := if Js.truthy (cr_clientName req)
                     then default "" (cr_clientName req)
                     else "Unknown Client";
     r_requestedSource := cr_sourceName req;
     r_publicIP := cr_publicIP req;
     r_publicPort := cr_publicPort req;
     r_requestedAt := now;
     r_acknowledged := false |}.

Definition push_request (r : ConnectionRequest) (h : Host) : Host :=
  {| h_hostId := h_hostId h;
     h_computerName := h_computerName h;
     h_sources := h_sources h;
     h_publicIP := h_publicIP h;
     h_publicPort := h_publicPort h;
     h_registeredAt := h_registeredAt h;
     h_lastHeartbeat := h_lastHeartbeat h;
     h_connectedClients := h_connectedClients h ++ [r] |}.

(** POST /api/hosts/:hostId/connect *)
Definition requestConnect (hostId : string) (req : ConnectReq)
    (rnd : Entropy) (now : Z) (st : State) : State * Response :=
  match hosts st !! hostId with
  | None => (st, Err 404 "Host not found or offline")
  | Some host =>
    match findSource (cr_sourceName req) host with
    | None => (st, Err 404 "Source not found or not shared")
    | Some _ =>
      let r := connectionRequest req rnd now in
      (set_hosts (insert hostId (push_request r host)) st,
       Ok (ConnectionRequested (r_clientId r)
             (mkEndpoint (h_publicIP host) (h_publicPort host))))
    end
  end.

Definition set_acknowledged (c : ConnectionRequest) : ConnectionRequest :=
  {| r_clientId := r_clientId c;
     r_clientName := r_clientName c;
     r_requestedSource := r_requestedSource c;
     r_publicIP := r_publicIP c;
     r_publicPort := r_publicPort c;
     r_requestedAt := r_requestedAt c;
     r_acknowledged := true |}.

(** [find] stops at the first request of that client; only that one is
    marked. *)
Fixpoint acknowledge_first (clientId : string) (l : list ConnectionRequest)
    : list ConnectionRequest :=
  match l with
  | [] => []
  | c :: t =>
    if String.eqb (r_clientId c) clientId then set_acknowledged c :: t
    else c :: acknowledge_first clientId t
  end.

Definition with_requests (l : list ConnectionRequest) (h : Host) : Host :=
  {| h_hostId := h_hostId h;
     h_computerName := h_computerName h;
     h_sources := h_sources h;
     h_publicIP := h_publicIP h;
     h_publicPort := h_publicPort h;
     h_registeredAt := h_registeredAt h;
     h_lastHeartbeat := h_lastHeartbeat h;
     h_connectedClients := l |}.

(** POST /api/hosts/:hostId/acknowledge/:clientId *)
Definition acknowledge (hostId clientId : string) (st : State)
    : State * Response :=
  match hosts st !! hostId with
  | None => (st, Err 404 "Host not found")
  | Some host =>
    (set_hosts
       (insert hostId
          (with_requests
             (acknowledge_first clientId (h_connectedClients host)) host))
       st,
     Ok Plain)
  end.

(** ** Signalling relay *)

Record SignalData := mkSignal {
  d_type : string;
  d_code : option string;
  d_role : option string;
  d_targetId : option string;
  d_payload : string
}.

Inductive Msg :=
  | MError (message : string)
  | MRegistered (role code : option string)
  | MHostOnline
  | MHostOffline
  | MClientJoined (clientId : string)
  | MClientLeft (clientId : string)
  | MPong
  | MForward (data : SignalData) (fromId : string)   (* {...data, fromId} *)
  | MPeerUdpInfo (peerId : option string) (publicIP : string) (publicPort : Z)
  | MStunResponse (publicIP : string) (publicPort : Z)
                  (sessionCode : option string).

(** What a handler sends, in order. *)
Inductive Out :=
  | Reply (m : Msg)                   (* [ws.send] on the sender's socket *)
  | ToConn (id : string) (m : Msg)    (* [connections.get(id).ws.send] *)
  | Datagram (address : string) (port : Z) (m : Msg).

Definition live (st : State) (id : string) : bool :=
  bool_decide (is_Some (connections st !! id)).

(** [const peer = connections.get(id); if (peer?.ws) peer.ws.send(m)] *)
Definition notify (st : State) (m : Msg) (id : string) : list Out :=
  if live st id then [ToConn id m] else [].

(** [connectionId = Math.random().toString(36).substring(7)]; [r] is the
    base-36 rendering of the random number. *)
Definition connectionId (r : string) : string :=
  String.substring 7 (String.length r - 7) r.

(** [wss.on('connection')] *)
Definition wsConnect (r : string) (st : State) : State :=
  set_connections (insert (connectionId r) (mkConnection None None)) st.

Definition is_role (role : option string) (r : string) : bool :=
  bool_decide (role = Some r).

Definition with_host (host : option string) (status : Status) (s : Session)
    : Session :=
  {| s_code := s_code s;
     s_hostId := s_hostId s;
     s_bridgeName := s_bridgeName s;
     s_sources := s_sources s;
     s_host := host;
     s_clients := s_clients s;
     s_createdAt := s_createdAt s;
     s_status := status |}.

Definition with_clients (clients : list string) (s : Session) : Session :=
  {| s_code := s_code s;
     s_hostId := s_hostId s;
     s_bridgeName := s_bridgeName s;
     s_sources := s_sources s;
     s_host := s_host s;
     s_clients := clients;
     s_createdAt := s_createdAt s;
     s_status := s_status s |}.

(** [sessions.get(code)] for a code that may be missing from the message. *)
Definition getSession (st : State) (code : option string) : option Session :=
  code ≫= λ c, sessions st !! c.

(** The host of a session, when [if (session.host)] lets it through. *)
Definition notify_host (st : State) (m : Msg) (s : Session) : list Out :=
  match s_host s with
  | Some h => if Js.truthy_str h then notify st m h else []
  | None => []
  end.

(** The broadcast branch of [forwardSignal]: the peers are the clients
    for a host and [[session.host]] for everyone else. *)
Definition broadcast (st : State) (fromId : string) (m : Msg)
    (role : option string) (s : Session) : list Out :=
  let peers := if is_role role "host"
               then map Some (s_clients s) else [s_host s] in
  flat_map (λ peer,
              match peer with
              | Some id =>
                if live st id && negb (bool_decide (id = fromId))
                then [ToConn id m] else []
              | None => []
              end) peers.

Definition forwardSignal (fromId : string) (data : SignalData) (st : State)
    : list Out :=
  match connections st !! fromId with
  | None => []
  | Some fromConnection =>
    match getSession st (c_sessionCode fromConnection) with
    | None => []
    | Some session =>
      let m := MForward data fromId in
      if Js.truthy (d_targetId data) then
        match d_targetId data with
        | Some targetId => notify st m targetId
        | None => []
        end
      else broadcast st fromId m (c_role fromConnection) session
    end
  end.

Definition is_relayed (type : string) : bool :=
  bool_decide (type ∈ ["offer"; "answer"; "ice-candidate";
                        "connection_info"; "udp_endpoint"]).

(** [handleSignal], called from [ws.on('message')] inside a [try]: when
    the connection entry is gone, [connection.role = role] throws and
    the [catch] answers "Invalid message format". *)
Definition handleSignal (connId : string) (data : SignalData) (st : State)
    : State * list Out :=
  let role := d_role data in
  let code := d_code data in
  if String.eqb (d_type data) "register" then
    match connections st !! connId with
    | None => (st, [Reply (MError "Invalid message format")])
    | Some _ =>
      let st1 := set_connections (insert connId (mkConnection role code)) st in
      match code, getSession st1 code with
      | Some c, Some session =>
        let registered := [Reply (MRegistered role code)] in
        if is_role role "host" then
          (set_sessions (insert c (with_host (Some connId) Active session)) st1,
           flat_map (notify st1 MHostOnline) (s_clients session) ++ registered)
        else if is_role role "client" then
          (set_sessions
             (insert c (with_clients (s_clients session ++ [connId]) session))
             st1,
           notify_host st1 (MClientJoined connId) session ++ registered)
        else (st1, registered)
      | _, _ => (st1, [Reply (MError "Session not found")])
      end
    end
  else if is_relayed (d_type data) then (st, forwardSignal connId data st)
  else if String.eqb (d_type data) "ping" then (st, [Reply MPong])
  else (st, []).

(** [handleDisconnect], called from [ws.on('close')]. *)
Definition handleDisconnect (connId : string) (st : State)
    : State * list Out :=
  let closed := set_connections (delete connId) in
  match connections st !! connId with
  | None => (closed st, [])
  | Some connection =>
    match c_sessionCode connection with
    | Some c =>
      if Js.truthy_str c then
        match sessions st !! c with
        | Some session =>
          if is_role (c_role connection) "host" then
            (closed (set_sessions
                       (insert c (with_host None Waiting session)) st),
             flat_map (notify st MHostOffline) (s_clients session))
          else if is_role (c_role connection) "client" then
            let session' :=
              with_clients
                (List.filter (λ id, negb (String.eqb id connId))
                             (s_clients session)) session in
            (closed (set_sessions (insert c session') st),
             notify_host st (MClientLeft connId) session')
          else (closed st, [])
        | None => (closed st, [])
        end
      else (closed st, [])
    | None => (closed st, [])
    end
  end.

(** ** Endpoint discovery *)





(** ** The server as a transition system

    One event per handler that writes the state; the read-only routes
    leave it as it is.  The clock, the random bytes and the request
    bodies are chosen by the environment.  The HTTP polling routes write
    [hostEndpoint] and [clientEndpoints] only, two session fields that no
    handler below reads, and the log store is a map of its own: they are
    left out together with those fields. *)

Inductive Event :=
  | CreateSession (hostId bridgeName : option string)
                  (sources : option (list string)) (rnd : Entropy) (now : Z)
  | SessionSweep (now : Z)
  | RegisterHost (req : RegisterHostReq) (clientIP : option string)
                 (generated : string) (now : Z)
  | Heartbeat (hostId : string) (publicIP : option string)
              (publicPort : option Z) (sources : option (list Source))
              (clientIP : option string) (now : Z)
  | DeleteHost (hostId : string)
  | HostSweep (now : Z)
  | RequestConnect (hostId : string) (req : ConnectReq) (rnd : Entropy)
                   (now : Z)
  | Acknowledge (hostId clientId : string)
  | WsConnect (r : string)
  | WsMessage (connId : string) (data : SignalData)
  | WsClose (connId : string).

Definition step (e : Event) (st : State) : State :=
  match e with
  | CreateSession hostId bridgeName sources rnd now =>
      (createSession hostId bridgeName sources rnd now st).1
  | SessionSweep now => sessionSweep now st
  | RegisterHost req clientIP generated now =>
      (registerHost req clientIP generated now st).1
  | Heartbeat hostId publicIP publicPort sources clientIP now =>
      (heartbeat hostId publicIP publicPort sources clientIP now st).1
  | DeleteHost hostId => (deleteHost hostId st).1
  | HostSweep now => hostSweep now st
  | RequestConnect hostId req rnd now =>
      (requestConnect hostId req rnd now st).1
  | Acknowledge hostId clientId => (acknowledge hostId clientId st).1
  | WsConnect r => wsConnect r st
  | WsMessage connId data => (handleSignal connId data st).1
  | WsClose connId => (handleDisconnect connId st).1
  end.

Definition run (es : list Event) (st : State) : State :=
  fold_left (λ s e, step e s) es st.

Inductive reachable : State → Prop :=
  | reachable_init : reachable init
  | reachable_step st e : reachable st → reachable (step e st).

(** ** Predicates and scenarios used in the statements *)

(** What holds of every session stored under the key [c]. *)
Definition session_ok (c : string) (s : Session) : Prop :=
  s_code s = c ∧ valid_code c ∧
  (s_status s = Active ↔ is_Some (s_host s)).

(** Random bytes that are all 0: the code drawn from them is AAAAAA. *)
Definition zeros : Entropy := λ _, 0.

(** [{type: 'register', code, role}] *)
Definition register (role code : string) : SignalData :=
  mkSignal "register" (Some code) (Some role) None "".

(** The trace behind C2: a session is created, a connection registers
    as its host, the same connection sends a second register message
    with a code that names no session, and then closes. *)
Definition orphaned_host_trace : list Event :=
  [ CreateSession (Some "h1") (Some "Studio A") None zeros 0;
    WsConnect "0.abcdefghijk";
    WsMessage "fghijk" (register "host" "AAAAAA");
    WsMessage "fghijk" (register "host" "ZZZZZZ");
    WsClose "fghijk" ].


(** A session with a host and two clients, all connected. *)
Definition star_trace : list Event :=
  [ CreateSession (Some "h1") (Some "Studio A") None zeros 0;
    WsConnect "0.xxxxxhost01";
    WsConnect "0.xxxxxcli001";
    WsConnect "0.xxxxxcli002";
    WsMessage "cli001" (register "client" "AAAAAA");
    WsMessage "host01" (register "host" "AAAAAA");
    WsMessage "cli002" (register "client" "AAAAAA") ].

(** [{type: 'offer', ...}] without targetId. *)
Definition offer : SignalData := mkSignal "offer" None None None "sdp".

(** A host with one shared and one disabled source, and a client that
    asks for the shared one. *)
Definition camera : Source := mkSource "Camera 1" true.
Definition screen : Source := mkSource "Screen" false.

Definition studio : RegisterHostReq :=
  mkRegisterHostReq (Some "host0001") (Some "Studio PC")
                    (Some [camera; screen]) (Some "203.0.113.5") None.

Definition viewer : ConnectReq :=
  mkConnectReq (Some "c1") (Some "Viewer") "Camera 1"
               (Some "198.51.100.7") (Some 5000).

Definition registry_trace : list Event :=
  [ RegisterHost studio None "gggggggggggggggg" 1000;
    RequestConnect "host0001" viewer zeros 2000 ].

(** A registry with a fresh host, a host that shares nothing and a host
    whose heartbeat is 50 s old at time 60000. *)
Definition listing_trace : list Event :=
  [ RegisterHost studio None "gggggggggggggggg" 10000;
    RegisterHost (mkRegisterHostReq (Some "host0002") (Some "Idle PC")
                    (Some [screen]) None None)
                 (Some "198.51.100.9") "gggggggggggggggg" 59000;
    RegisterHost (mkRegisterHostReq None (Some "Laptop")
                    (Some [camera]) None (Some 6000))
                 (Some "198.51.100.8") "abcdefgh01234567" 58000 ].

(** The host shares a source of that name. *)
Definition shares (h : Host) (sourceName : string) : Prop :=
  ∃ s, s ∈ h_sources h ∧ src_name s = sourceName ∧ src_enabled s = true.

(** The entry of GET /api/hosts for a host. *)
Definition host_view (hostId : string) (h : Host) : HostView :=
  {| v_hostId := hostId;
     v_computerName := h_computerName h;
     v_sources := map src_name (enabledSources h);
     v_online := true;
     v_lastSeen := h_lastHeartbeat h |}.




(** ** Routes that only read, and routes with a store of their own *)

(** The answer of a route outside the registry core: the JSON payload
    of a 200, or the status and message of a failure. *)
Inductive Answer (A : Type) :=
  | Found (a : A)
  | Failed (status : Z) (message : string).
Arguments Found {A} a.
Arguments Failed {A} status message.

Record SessionSummary := mkSummary {
  ss_code : string;
  ss_bridgeName : option string;
  ss_sources : list string;
  ss_hostConnected : bool
}.

Record SessionDetail := mkDetail {
  sd_code : string;
  sd_bridgeName : option string;
  sd_sources : list string;
  sd_hostConnected : bool;
  sd_clientCount : nat;
  sd_status : Status
}.

(** POST /api/session/join; [hostConnected: !!session.host]. *)
Definition joinSession (code : option string) (st : State)
    : Answer SessionSummary :=
  match getSession st code with
  | None => Failed 404 "Session not found. Please check the code."
  | Some session =>
    Found {| ss_code := s_code session;
             ss_bridgeName := s_bridgeName session;
             ss_sources := s_sources session;
             ss_hostConnected := Js.truthy (s_host session) |}
  end.

(** GET /api/session/:code *)
Definition sessionInfo (code : string) (st : State) : Answer SessionDetail :=
  match sessions st !! code with
  | None => Failed 404 "Session not found"
  | Some session =>
    Found {| sd_code := s_code session;
             sd_bridgeName := s_bridgeName session;
             sd_sources := s_sources session;
             sd_hostConnected := Js.truthy (s_host session);
             sd_clientCount := length (s_clients session);
             sd_status := s_status session |}
  end.

Record ConnectStatus := mkConnectStatus {
  cs_hostOnline : bool;
  cs_hostEndpoint : HostEndpoint;
  cs_acknowledged : bool
}.

(** GET /api/hosts/:hostId/status/:clientId *)
Definition pollConnectStatus (hostId clientId : string) (now : Z) (st : State)
    : Answer ConnectStatus :=
  match hosts st !! hostId with
  | None => Failed 404 "Host not found or offline"
  | Some host =>
    match List.find (λ c, String.eqb (r_clientId c) clientId)
                    (h_connectedClients host) with
    | None => Failed 404 "Connection request not found"
    | Some client =>
      Found {| cs_hostOnline :=
                 bool_decide (now - h_lastHeartbeat host < HOST_TIMEOUT_MS);
               cs_hostEndpoint :=
                 mkEndpoint (h_publicIP host) (h_publicPort host);
               cs_acknowledged := r_acknowledged client |}
    end
  end.

(** *** HTTP polling

    The polling routes keep two more fields on the session object,
    [hostEndpoint] and [clientEndpoints], both undefined until first
    written.  [polled] holds them per session code, for the session
    object that is stored under that code. *)

Record UdpEndpoint := mkUdpEndpoint {
  ue_publicIP : option string;
  ue_publicPort : option Z;
  ue_peerId : string;
  ue_updatedAt : Z
}.

Record ClientEndpoint := mkClientEndpoint {
  ce_publicIP : option string;
  ce_publicPort : option Z;
  ce_peerId : string;
  ce_clientName : option string;
  ce_updatedAt : Z
}.

Record PollFields := mkPollFields {
  pf_hostEndpoint : option UdpEndpoint;
  pf_clientEndpoints : option (list ClientEndpoint)
}.

Definition no_fields : PollFields := mkPollFields None None.

Definition fields_of (polled : gmap string PollFields) (code : string)
    : PollFields :=
  default no_fields (polled !! code).

Definition POLL_FRESH_MS : Z := 30000.

(** POST /api/host/endpoint/:code *)
Definition updateHostEndpoint (code : string) (publicIP : option string)
    (publicPort : option Z) (peerId : string) (now : Z) (st : State)
    (polled : gmap string PollFields)
    : gmap string PollFields * Answer unit :=
  match sessions st !! code with
  | None => (polled, Failed 404 "Session not found")
  | Some _ =>
    let f := fields_of polled code in
    (<[code := mkPollFields
                 (Some (mkUdpEndpoint publicIP publicPort peerId now))
                 (pf_clientEndpoints f)]> polled,
     Found tt)
  end.

(** [l.findIndex(p)], with [None] for -1. *)
Fixpoint findIndex {A} (p : A → bool) (l : list A) : option nat :=
  match l with
  | [] => None
  | x :: t => if p x then Some 0%nat else S <$> findIndex p t
  end.

(** The body of POST /api/client/endpoint/:code on the list: replace
    the entry found by [findIndex] or push.  An undefined list gives an
    undefined index, and [undefined >= 0] is false. *)
Definition upsertEndpoint (e : ClientEndpoint)
    (l : option (list ClientEndpoint)) : list ClientEndpoint :=
  match l with
  | None => [e]
  | Some l =>
    match findIndex (λ c, String.eqb (ce_peerId c) (ce_peerId e)) l with
    | Some i => <[i := e]> l
    | None => l ++ [e]
    end
  end.

(** POST /api/client/endpoint/:code *)
Definition updateClientEndpoint (code : string) (publicIP : option string)
    (publicPort : option Z) (peerId : string) (clientName : option string)
    (now : Z) (st : State) (polled : gmap string PollFields)
    : gmap string PollFields * Answer unit :=
  match sessions st !! code with
  | None => (polled, Failed 404 "Session not found")
  | Some _ =>
    let f := fields_of polled code in
    let endpoint :=
      mkClientEndpoint publicIP publicPort peerId clientName now in
    (<[code := mkPollFields
                 (pf_hostEndpoint f)
                 (Some (upsertEndpoint endpoint (pf_clientEndpoints f)))]>
       polled,
     Found tt)
  end.

Record PolledClient := mkPolledClient {
  pc_peerId : string;
  pc_clientName : option string;
  pc_publicIP : option string;
  pc_publicPort : option Z;
  pc_connected : bool
}.

Definition fresh (now updatedAt : Z) : bool :=
  bool_decide (now - updatedAt < POLL_FRESH_MS).

(** GET /api/host/poll/:code: the clients and [session.hostEndpoint ||
    null]. *)
Definition hostPoll (code : string) (now : Z) (st : State)
    (polled : gmap string PollFields)
    : Answer (list PolledClient * option UdpEndpoint) :=
  match sessions st !! code with
  | None => Failed 404 "Session not found"
  | Some _ =>
    let f := fields_of polled code in
    Found (map (λ c, mkPolledClient (ce_peerId c) (ce_clientName c)
                       (ce_publicIP c) (ce_publicPort c)
                       (fresh now (ce_updatedAt c)))
               (default [] (pf_clientEndpoints f)),
           pf_hostEndpoint f)
  end.

Record PeerView := mkPeerView {
  pv_peerId : string;
  pv_clientName : option string;
  pv_publicIP : option string;
  pv_publicPort : option Z
}.

Record ClientPoll := mkClientPoll {
  cp_bridgeName : option string;
  cp_sources : list string;
  cp_hostAvailable : option bool;     (* undefined without hostEndpoint *)
  cp_hostEndpoint : option (option string * option Z * string);
  cp_otherClients : list PeerView
}.

(** GET /api/client/poll/:code *)
Definition clientPoll (code : string) (now : Z) (st : State)
    (polled : gmap string PollFields) : Answer ClientPoll :=
  match sessions st !! code with
  | None => Failed 404 "Session not found"
  | Some session =>
    let f := fields_of polled code in
    let hostAvailable :=
      (λ e, fresh now (ue_updatedAt e)) <$> pf_hostEndpoint f in
    Found {| cp_bridgeName := s_bridgeName session;
             cp_sources := s_sources session;
             cp_hostAvailable := hostAvailable;
             cp_hostEndpoint :=
               match pf_hostEndpoint f with
               | Some e =>
                 if fresh now (ue_updatedAt e)
                 then Some (ue_publicIP e, ue_publicPort e, ue_peerId e)
                 else None
               | None => None
               end;
             cp_otherClients :=
               map (λ c, mkPeerView (ce_peerId c) (ce_clientName c)
                           (ce_publicIP c) (ce_publicPort c))
                   (List.filter (λ c, fresh now (ce_updatedAt c))
                                (default [] (pf_clientEndpoints f))) |}
  end.

(** The polling routes as events on a fixed registry. *)
Inductive PollEvent :=
  | HostEndpointUpdate (code : string) (publicIP : option string)
                       (publicPort : option Z) (peerId : string) (now : Z)
  | ClientEndpointUpdate (code : string) (publicIP : option string)
                         (publicPort : option Z) (peerId : string)
                         (clientName : option string) (now : Z).

Definition poll_step (st : State) (polled : gmap string PollFields)
    (e : PollEvent) : gmap string PollFields :=
  match e with
  | HostEndpointUpdate code ip port peerId now =>
      (updateHostEndpoint code ip port peerId now st polled).1
  | ClientEndpointUpdate code ip port peerId name now =>
      (updateClientEndpoint code ip port peerId name now st polled).1
  end.

Definition poll_run (st : State) (es : list PollEvent)
    : gmap string PollFields :=
  fold_left (poll_step st) es ∅.

(** *** Log store *)

Record LogEntry := mkLogEntry {
  l_logId : string;
  l_deviceName : string;
  l_timestamp : string;
  l_platform : string;
  l_appVersion : string;
  l_logContents : string;
  l_uploadedAt : Z
}.

Record LogUpload := mkLogUpload {
  lu_deviceName : option string;
  lu_timestamp : option string;
  lu_logContents : option string;
  lu_platform : option string;
  lu_appVersion : option string
}.

(** [x || d] for an optional string and a default. *)
Definition or_default (x : option string) (d : string) : string :=
  if Js.truthy x then default d x else d.

Definition LOG_TTL_MS : Z := 24 * 60 * 60 * 1000.

(** POST /api/logs/upload; [isoNow] is [new Date().toISOString()]. *)
Definition uploadLog (req : LogUpload) (isoNow : string) (rnd : Entropy)
    (now : Z) (logs : gmap string LogEntry)
    : gmap string LogEntry * Answer string :=
  if negb (Js.truthy (lu_logContents req)) then
    (logs, Failed 400 "No log contents provided")
  else
    let logId := generateCode rnd in
    let entry :=
      {| l_logId := logId;
         l_deviceName := or_default (lu_deviceName req) "Unknown";
         l_timestamp := or_default (lu_timestamp req) isoNow;
         l_platform := or_default (lu_platform req) "Unknown";
         l_appVersion := or_default (lu_appVersion req) "Unknown";
         l_logContents := default "" (lu_logContents req);
         l_uploadedAt := now |} in
    (<[logId := entry]> logs, Found logId).

(** GET /api/logs/:logId *)
Definition getLog (logId : string) (logs : gmap string LogEntry)
    : Answer LogEntry :=
  match logs !! logId with
  | None => Failed 404 "Log not found"
  | Some log => Found log
  end.

(** The hourly log sweep. *)
Definition logSweep (now : Z) (logs : gmap string LogEntry)
    : gmap string LogEntry :=
  filter (λ kv, ¬ (now - l_uploadedAt kv.2 > LOG_TTL_MS)) logs.

(** ** The older server (server.js)

    It has no host registry and does not know the message type
    udp_endpoint; [forwardSignal] and [handleDisconnect] are the same
    functions. *)

Module Legacy.

Definition is_relayed (type : string) : bool :=
  bool_decide (type ∈ ["offer"; "answer"; "ice-candidate";
                        "connection_info"]).

Definition handleSignal (connId : string) (data : SignalData) (st : State)
    : State * list Out :=
  let role := d_role data in
  let code := d_code data in
  if String.eqb (d_type data) "register" then
    match connections st !! connId with
    | None => (st, [Reply (MError "Invalid message format")])
    | Some _ =>
      let st1 := set_connections (insert connId (mkConnection role code)) st in
      match code, getSession st1 code with
      | Some c, Some session =>
        let registered := [Reply (MRegistered role code)] in
        if is_role role "host" then
          (set_sessions (insert c (with_host (Some connId) Active session)) st1,
           flat_map (notify st1 MHostOnline) (s_clients session) ++ registered)
        else if is_role role "client" then
          (set_sessions
             (insert c (with_clients (s_clients session ++ [connId]) session))
             st1,
           notify_host st1 (MClientJoined connId) session ++ registered)
        else (st1, registered)
      | _, _ => (st1, [Reply (MError "Session not found")])
      end
    end
  else if is_relayed (d_type data) then (st, forwardSignal connId data st)
  else if String.eqb (d_type data) "ping" then (st, [Reply MPong])
  else (st, []).

End Legacy.

(** What holds of every host stored under the key [id]. *)
Definition request_ok (r : ConnectionRequest) : Prop :=
  r_clientId r ≠ "" ∧ r_clientName r ≠ "".

Definition host_ok (id : string) (h : Host) : Prop :=
  h_hostId h = id ∧ h_computerName h ≠ "" ∧ h_publicPort h ≠ 0 ∧
  Forall request_ok (h_connectedClients h).

(** The requests of a host that a heartbeat would report. *)
Definition pending_of (st : State) (hostId : string)
    : option (list PendingClient) :=
  pendingClients <$> hosts st !! hostId.

(** Random bytes that are all 1: the code drawn from them is BBBBBB. *)
Definition ones : Entropy := λ _, 1.




(** One connection that registers as client and then as host of the
    same session. *)
Definition own_client_trace : list Event :=
  [ CreateSession (Some "h1") (Some "Studio A") None zeros 0;
    WsConnect "0.abcdefghijk";
    WsMessage "fghijk" (register "client" "AAAAAA");
    WsMessage "fghijk" (register "host" "AAAAAA") ].

(** What holds of the polling fields kept for the code [code]. *)
Definition fields_ok (st : State) (code : string) (f : PollFields) : Prop :=
  is_Some (sessions st !! code) ∧
  match pf_clientEndpoints f with
  | Some l => NoDup (map ce_peerId l)
  | None => True
  end.

(** * Proofs *)

Lemma truthy_str_spec s : Js.truthy_str s = true ↔ s ≠ "".
Proof. destruct s; simpl; split; congruence. Qed.

Lemma reachable_run es : reachable (run es init).
Proof.
  unfold run. generalize init, reachable_init.
  induction es as [|e es IH]; intros st Hst; simpl; [done|].
  apply IH. by constructor.
Qed.

(** ** Properties of the code generator *)

Lemma pick_in_alphabet (b : Z) : pick b ∈ alphabet.
Proof.
  unfold pick. apply list_elem_of_In, nth_In.
  change 31 with (Z.ones 5). rewrite Z.land_ones by lia.
  change (length alphabet) with 32%nat.
  pose proof (Z.mod_pos_bound b (2 ^ 5)). lia.
Qed.

Lemma list_ascii_string_roundtrip (l : list ascii) :
  list_ascii_of_string (string_of_list_ascii l) = l.
Proof. induction l as [|a l IH]; simpl; congruence. Qed.

Lemma generateCode_valid (rnd : Entropy) : valid_code (generateCode rnd).
Proof.
  split; [reflexivity|].
  unfold generateCode. rewrite list_ascii_string_roundtrip.
  apply Forall_forall. intros a Ha.
  apply list_elem_of_In, in_map_iff in Ha as (i & <- & _).
  apply pick_in_alphabet.
Qed.

Lemma valid_code_nonempty (c : string) : valid_code c → c ≠ "".
Proof. intros [Hlen _] ->. discriminate. Qed.

(** ** Invariants of the reachable states *)

Lemma session_ok_with_host c s connId :
  session_ok c s → session_ok c (with_host (Some connId) Active s).
Proof.
  intros (? & ? & _).
  split; [done|]. split; [done|]. simpl. split; [by eexists | done].
Qed.

Lemma session_ok_without_host c s :
  session_ok c s → session_ok c (with_host None Waiting s).
Proof.
  intros (? & ? & _).
  split; [done|]. split; [done|]. simpl.
  split; [discriminate | by intros [? ?]].
Qed.

Lemma session_ok_with_clients c s l :
  session_ok c s → session_ok c (with_clients l s).
Proof. intros (? & ? & ?). split; [done|]. by split. Qed.

Create HintDb relay.
#[local] Hint Resolve session_ok_with_host session_ok_without_host
  session_ok_with_clients : relay.

(** A handler that writes a session back under its code. *)
Ltac store_session :=
  apply map_Forall_insert_2; [eauto with relay | done].

Lemma getSession_Some st code s :
  getSession st code = Some s →
  ∃ c, code = Some c ∧ sessions st !! c = Some s.
Proof. destruct code as [c|]; simpl; [eauto | discriminate]. Qed.

Lemma sessions_ok_step e st :
  map_Forall session_ok (sessions st) →
  map_Forall session_ok (sessions (step e st)).
Proof.
  intros Hok. destruct e; simpl.
  - apply map_Forall_insert_2; [|done].
    split; [done|]. split; [apply generateCode_valid|]. simpl.
    split; [discriminate | by intros [? ?]].
  - intros c s [Hs _]%map_lookup_filter_Some. by apply Hok.
  - unfold registerHost. repeat case_match; done.
  - unfold heartbeat. repeat case_match; done.
  - done.
  - done.
  - unfold requestConnect. repeat case_match; done.
  - unfold acknowledge. repeat case_match; done.
  - done.
  - unfold handleSignal.
    repeat case_match; simpl; try done;
      match goal with
      | H : getSession _ _ = Some _ |- _ =>
          apply getSession_Some in H as (? & [= <-] & H); simpl in H
      end;
      store_session.
  - unfold handleDisconnect.
    repeat case_match; simpl; try done; store_session.
Qed.

Lemma reachable_sessions_ok st :
  reachable st → map_Forall session_ok (sessions st).
Proof.
  induction 1 as [|st e _ IH]; [|by apply sessions_ok_step].
  simpl. apply map_Forall_empty.
Qed.

(** In a reachable state a session is stored under its own code, so two
    entries of the registry never carry the same code. *)
Lemma reachable_codes_distinct st c1 c2 s1 s2 :
  reachable st →
  sessions st !! c1 = Some s1 → sessions st !! c2 = Some s2 →
  s_code s1 = s_code s2 → c1 = c2.
Proof.
  intros Hst H1 H2 Heq.
  apply (reachable_sessions_ok _ Hst) in H1 as (<- & _).
  by apply (reachable_sessions_ok _ Hst) in H2 as (<- & _).
Qed.

(** ** Session creation *)

(** C1, as the code has it: createSession answers with the six symbols
    that [generateCode] draws from the 32-symbol alphabet and stores a
    waiting session under them without looking at the registry first.
    A session already stored under that code is replaced, every other
    session is kept, and the entries of the registry carry pairwise
    different codes. *)
Theorem C1_createSession_code st hostId bridgeName sources rnd now :
  reachable st →
  let code := generateCode rnd in
  let res := createSession hostId bridgeName sources rnd now st in
  res.2 = Ok (SessionCreated code) ∧
  valid_code code ∧
  sessions res.1 !! code =
    Some (mkSession code hostId bridgeName (default [] sources)
                    None [] now Waiting) ∧
  (∀ c, c ≠ code → sessions res.1 !! c = sessions st !! c) ∧
  (∀ c1 c2 s1 s2,
     sessions res.1 !! c1 = Some s1 → sessions res.1 !! c2 = Some s2 →
     s_code s1 = s_code s2 → c1 = c2).
Proof.
  intros Hst code res.
  split; [done|]. split; [apply generateCode_valid|].
  split; [apply lookup_insert_eq|].
  split; [intros c Hc; by apply lookup_insert_ne|].
  intros c1 c2 s1 s2.
  apply (reachable_codes_distinct
           (step (CreateSession hostId bridgeName sources rnd now) st)).
  by constructor.
Qed.

Lemma C1_createSession_code_witness :
  reachable init ∧ valid_code (generateCode zeros).
Proof.
  split; [constructor|].
  exact (proj1 (proj2 (C1_createSession_code init None None None zeros 0
                         reachable_init))).
Defined.

(** C1 as stated fails: the code handed out by createSession can be the
    code of a session that is in the registry at that moment.  Two calls
    that draw the same bytes get the same code, and the second session
    takes the place of the first. *)
Lemma C1_collision_not_checked :
  ¬ (∀ st hostId bridgeName sources rnd now code,
       reachable st →
       (createSession hostId bridgeName sources rnd now st).2
         = Ok (SessionCreated code) →
       sessions st !! code = None).
Proof.
  intros H.
  specialize (H (run [CreateSession (Some "h1") (Some "Studio A") None zeros 0]
                     init)
                (Some "h2") (Some "Studio B") None zeros 1 "AAAAAA"
                (reachable_run _) eq_refl).
  vm_compute in H. discriminate.
Qed.

(** ** Registration on the relay *)

(** The status of a stored session says [Active] exactly when its host
    field is set: the two fields are always written together. *)
Lemma reachable_status_iff_host st c s :
  reachable st → sessions st !! c = Some s →
  s_status s = Active ↔ is_Some (s_host s).
Proof.
  intros Hst Hs. by apply (reachable_sessions_ok _ Hst) in Hs as (_ & _ & ?).
Qed.

(** A disconnect cleans up after the role and the session code that are
    written on the connection at that moment. *)
Lemma handleDisconnect_host st connId c s :
  connections st !! connId = Some (mkConnection (Some "host") (Some c)) →
  sessions st !! c = Some s → c ≠ "" →
  sessions (handleDisconnect connId st).1 !! c
    = Some (with_host None Waiting s).
Proof.
  intros Hconn Hs Hc. unfold handleDisconnect. rewrite Hconn. simpl.
  apply truthy_str_spec in Hc as ->. rewrite Hs. simpl.
  apply lookup_insert_eq.
Qed.

(** A register message writes role and code on the connection before
    the session is looked up, and an unknown code leaves them there. *)
Lemma handleSignal_register_unknown st connId data conn :
  d_type data = "register" →
  connections st !! connId = Some conn →
  getSession st (d_code data) = None →
  handleSignal connId data st =
    (set_connections
       (insert connId (mkConnection (d_role data) (d_code data))) st,
     [Reply (MError "Session not found")]).
Proof.
  intros Htype Hconn Hnone. unfold handleSignal.
  rewrite Htype, Hconn. simpl.
  destruct (d_code data) as [c|]; simpl in *; [|done].
  by rewrite Hnone.
Qed.

(** C2 at the failing trace: after the registered host's connection has
    closed, the connection is gone from the live table while the session
    still names it as host and is still [Active]. *)
Theorem C2_host_closed_session_still_active :
  let st := run orphaned_host_trace init in
  connections st !! "fghijk" = None ∧
  sessions st !! "AAAAAA" =
    Some (mkSession "AAAAAA" (Some "h1") (Some "Studio A") []
                    (Some "fghijk") [] 0 Active).
Proof. vm_compute. done. Qed.

(** C4 at the failing input: a fresh connection registers with a code
    that names no session.  The answer is the error, and the connection
    carries the role and the code of the message afterwards. *)
Theorem C4_unknown_code_marks_connection :
  let st := run [WsConnect "0.abcdefghijk"] init in
  connections st !! "fghijk" = Some (mkConnection None None) ∧
  (handleSignal "fghijk" (register "host" "ZZZZZZ") st).2
    = [Reply (MError "Session not found")] ∧
  connections (handleSignal "fghijk" (register "host" "ZZZZZZ") st).1
    !! "fghijk"
    = Some (mkConnection (Some "host") (Some "ZZZZZZ")).
Proof. vm_compute. done. Qed.

(** C6 as stated fails: a connection that sends register with role
    client twice for the same session is listed twice. *)
Lemma C6_client_listed_twice :
  ¬ (∀ st c s, reachable st → sessions st !! c = Some s →
               NoDup (s_clients s)).
Proof.
  intros H.
  specialize (H (run [ CreateSession None None None zeros 0;
                       WsConnect "0.abcdefghijk";
                       WsMessage "fghijk" (register "client" "AAAAAA");
                       WsMessage "fghijk" (register "client" "AAAAAA") ]
                     init)
                "AAAAAA" _ (reachable_run _) eq_refl).
  vm_compute in H. apply NoDup_cons_1_1 in H. apply H. by left.
Qed.

(** C6, as the code has it: a register message with role client for an
    existing session pushes the sender's connection id at the end of
    the client list without a membership test, so the list is free of
    duplicates afterwards exactly when it was before and the id was not
    in it. *)
Theorem C6_register_client_pushes st connId data c s conn :
  d_type data = "register" → d_role data = Some "client" →
  d_code data = Some c →
  connections st !! connId = Some conn →
  sessions st !! c = Some s →
  let s' := with_clients (s_clients s ++ [connId]) s in
  sessions (handleSignal connId data st).1 !! c = Some s' ∧
  (NoDup (s_clients s') ↔ NoDup (s_clients s) ∧ connId ∉ s_clients s).
Proof.
  intros Htype Hrole Hcode Hconn Hs s'. split.
  - unfold handleSignal. rewrite Htype, Hrole, Hcode, Hconn. simpl.
    rewrite Hs. simpl. apply lookup_insert_eq.
  - simpl. rewrite NoDup_app. split.
    + intros (Hnd & Hnot & _). split; [done|].
      intros Hin. apply (Hnot _ Hin). by left.
    + intros [Hnd Hnot]. split; [done|]. split; [|apply NoDup_singleton].
      intros x Hx ->%list_elem_of_singleton. done.
Qed.

Lemma C6_register_client_pushes_witness :
  let st := run [ CreateSession None None None zeros 0;
                  WsConnect "0.abcdefghijk" ] init in
  s_clients <$> sessions
      (handleSignal "fghijk" (register "client" "AAAAAA") st).1 !! "AAAAAA"
    = Some ["fghijk"].
Proof.
  intros st.
  pose proof (C6_register_client_pushes st "fghijk"
                (register "client" "AAAAAA") "AAAAAA"
                (mkSession "AAAAAA" None None [] None [] 0 Waiting)
                (mkConnection None None)
                eq_refl eq_refl eq_refl eq_refl eq_refl) as [H _].
  rewrite H. reflexivity.
Defined.

(** ** Relayed messages *)

Lemma is_relayed_not_register type :
  is_relayed type = true →
  String.eqb type "register" = false ∧ String.eqb type "ping" = false.
Proof.
  intros H%bool_decide_eq_true.
  repeat (apply elem_of_cons in H as [->|H]); try done.
  by apply elem_of_nil in H.
Qed.

Lemma handleSignal_relayed st connId data :
  is_relayed (d_type data) = true →
  handleSignal connId data st = (st, forwardSignal connId data st).
Proof.
  intros H. unfold handleSignal.
  destruct (is_relayed_not_register _ H) as [-> _]. by rewrite H.
Qed.







(** ** Host registry *)

Lemma set_hosts_id st hostId h :
  hosts st !! hostId = Some h → set_hosts (insert hostId h) st = st.
Proof.
  intros Hh. destruct st as [ss cs hs]. unfold set_hosts. simpl in *.
  by rewrite insert_id.
Qed.

Lemma acknowledge_first_none clientId l :
  Forall (λ r, r_clientId r ≠ clientId) l →
  acknowledge_first clientId l = l.
Proof.
  induction 1 as [|r l Hr _ IH]; simpl; [done|].
  apply String.eqb_neq in Hr as ->. by rewrite IH.
Qed.

(** C5 as stated fails: with no host of that id the answer is an error,
    not a success. *)
Lemma C5_unknown_host_is_error :
  ¬ (∀ st hostId clientId,
       hosts st !! hostId = None →
       success (acknowledge hostId clientId st).2 = true).
Proof.
  intros H. specialize (H init "nohost" "c1" eq_refl). discriminate.
Qed.

(** C5, as the code has it: acknowledge leaves the registry as it is
    both when the host is unknown and when the host has no pending
    request of that client; the answer is 404 "Host not found" in the
    first case and a success in the second. *)
Theorem C5_acknowledge_nothing_to_mark st hostId clientId :
  (hosts st !! hostId = None →
     acknowledge hostId clientId st = (st, Err 404 "Host not found")) ∧
  (∀ h, hosts st !! hostId = Some h →
        Forall (λ r, r_clientId r ≠ clientId) (h_connectedClients h) →
        acknowledge hostId clientId st = (st, Ok Plain)).
Proof.
  unfold acknowledge. split.
  - by intros ->.
  - intros h Hh Hnone. rewrite Hh, acknowledge_first_none by done.
    f_equal. apply set_hosts_id. by destruct h.
Qed.

Lemma C5_acknowledge_nothing_to_mark_witness :
  acknowledge "nohost" "c1" (run registry_trace init)
    = (run registry_trace init, Err 404 "Host not found") ∧
  acknowledge "host0001" "c2" (run registry_trace init)
    = (run registry_trace init, Ok Plain).
Proof.
  destruct (C5_acknowledge_nothing_to_mark
              (run registry_trace init) "nohost" "c1") as [H1 _].
  destruct (C5_acknowledge_nothing_to_mark
              (run registry_trace init) "host0001" "c2") as [_ H2].
  split; [apply H1; reflexivity|].
  eapply H2; [reflexivity|].
  repeat constructor. simpl. discriminate.
Defined.

Lemma findSource_None h sourceName :
  findSource sourceName h = None ↔ ¬ shares h sourceName.
Proof.
  unfold findSource, shares. split.
  - intros Hnone (s & Hin%list_elem_of_In & Hname & Hen).
    apply (find_none _ _ Hnone) in Hin.
    rewrite Hen, andb_true_r in Hin. by apply String.eqb_neq in Hin.
  - intros Hno.
    destruct (find _ _) as [s|] eqn:Hfind; [|done].
    apply find_some in Hfind as [Hin [Hname%String.eqb_eq Hen]%andb_true_iff].
    destruct Hno. exists s. by rewrite list_elem_of_In.
Qed.

Lemma requestConnect_shared st hostId req rnd now h s :
  hosts st !! hostId = Some h →
  findSource (cr_sourceName req) h = Some s →
  requestConnect hostId req rnd now st =
    (set_hosts
       (insert hostId (push_request (connectionRequest req rnd now) h)) st,
     Ok (ConnectionRequested (r_clientId (connectionRequest req rnd now))
           (mkEndpoint (h_publicIP h) (h_publicPort h)))).
Proof. intros Hh Hs. unfold requestConnect. by rewrite Hh, Hs. Qed.

(** C7: on a registered host, requestConnect for a source that the host
    does not have or has disabled answers 404 "Source not found or not
    shared" and leaves the registry as it is.  For a shared source it
    pushes one request at the end of the host's list and changes
    nothing else: the request carries the client id of the body (a
    generated code if there is none), the client name (or "Unknown
    Client"), the source, the address and port of the body and the
    time, and it is not acknowledged, so that the host's next heartbeat
    reports it as its last pending client.  A second identical call
    pushes a second, equal request. *)
Theorem C7_requestConnect st hostId req rnd now h :
  hosts st !! hostId = Some h →
  let res := requestConnect hostId req rnd now st in
  let clientId := match cr_clientId req with
                  | Some c => if Js.truthy_str c then c else generateCode rnd
                  | None => generateCode rnd
                  end in
  let clientName := match cr_clientName req with
                    | Some n => if Js.truthy_str n then n
                                else "Unknown Client"
                    | None => "Unknown Client"
                    end in
  let r := mkRequest clientId clientName (cr_sourceName req)
                     (cr_publicIP req) (cr_publicPort req) now false in
  (¬ shares h (cr_sourceName req) →
     res = (st, Err 404 "Source not found or not shared")) ∧
  (shares h (cr_sourceName req) →
     res.2 = Ok (ConnectionRequested clientId
                   (mkEndpoint (h_publicIP h) (h_publicPort h))) ∧
     hosts res.1 !! hostId =
       Some (mkHost (h_hostId h) (h_computerName h) (h_sources h)
                    (h_publicIP h) (h_publicPort h) (h_registeredAt h)
                    (h_lastHeartbeat h) (h_connectedClients h ++ [r])) ∧
     (∀ other, other ≠ hostId → hosts res.1 !! other = hosts st !! other) ∧
     sessions res.1 = sessions st ∧ connections res.1 = connections st ∧
     (∀ publicIP publicPort sources clientIP now',
        (heartbeat hostId publicIP publicPort sources clientIP now' res.1).2
          = Ok (PendingClients
                  (map pending_view
                       (List.filter (λ x, negb (r_acknowledged x))
                                    (h_connectedClients h))
                   ++ [mkPending clientId clientName (cr_publicIP req)
                                 (cr_publicPort req) (cr_sourceName req)]))) ∧
     h_connectedClients
       <$> hosts (requestConnect hostId req rnd now res.1).1 !! hostId
       = Some (h_connectedClients h ++ [r; r])).
Proof.
  intros Hh res clientId clientName r.
  assert (connectionRequest req rnd now = r) as Hr.
  { unfold connectionRequest, r, clientId, clientName. f_equal.
    - destruct (cr_clientId req) as [c|]; simpl; [|done].
      by destruct (Js.truthy_str c).
    - destruct (cr_clientName req) as [n|]; simpl; [|done].
      by destruct (Js.truthy_str n). }
  split.
  - intros Hno%findSource_None.
    unfold res, requestConnect. by rewrite Hh, Hno.
  - intros Hyes.
    destruct (findSource (cr_sourceName req) h) as [s|] eqn:Hfind;
      [|by apply findSource_None in Hfind].
    unfold res. rewrite (requestConnect_shared _ _ _ _ _ _ _ Hh Hfind), Hr.
    cbn [fst snd].
    split; [done|]. unfold set_hosts at 1. cbn [hosts].
    rewrite lookup_insert_eq. split; [done|].
    split; [intros other Hne; by apply lookup_insert_ne|].
    split; [done|]. split; [done|]. split.
    + intros publicIP publicPort sources clientIP now'.
      unfold heartbeat. cbn [set_hosts hosts]. rewrite lookup_insert_eq.
      cbn [snd]. unfold pendingClients. cbn [h_connectedClients push_request].
      by rewrite List.filter_app, map_app.
    + erewrite requestConnect_shared;
        [|apply lookup_insert_eq|exact Hfind].
      cbn [fst set_hosts hosts]. rewrite lookup_insert_eq, Hr.
      cbn. by rewrite <- app_assoc.
Qed.

Lemma C7_requestConnect_witness :
  let st := run [RegisterHost studio None "gggggggggggggggg" 1000] init in
  let anonymous := mkConnectReq None (Some "") "Camera 1" None None in
  requestConnect "host0001"
      (mkConnectReq (Some "c1") None "Screen" None None) zeros 2000 st
    = (st, Err 404 "Source not found or not shared") ∧
  hosts (requestConnect "host0001" viewer zeros 2000 st).1 !! "host0001"
    = Some (mkHost "host0001" "Studio PC" [camera; screen]
              (Some "203.0.113.5") 5961 1000 1000
              [mkRequest "c1" "Viewer" "Camera 1" (Some "198.51.100.7")
                         (Some 5000) 2000 false]) ∧
  (heartbeat "host0001" None None None None 3000
     (requestConnect "host0001" anonymous zeros 2000 st).1).2
    = Ok (PendingClients
            [mkPending "AAAAAA" "Unknown Client" None None "Camera 1"]).
Proof.
  intros st anonymous.
  assert (hosts st !! "host0001" =
          Some (mkHost "host0001" "Studio PC" [camera; screen]
                       (Some "203.0.113.5") 5961 1000 1000 [])) as Hh
    by reflexivity.
  assert (shares (mkHost "host0001" "Studio PC" [camera; screen]
                         (Some "203.0.113.5") 5961 1000 1000 [])
                 "Camera 1") as Hcam.
  { exists camera. split; [by left | done]. }
  destruct (C7_requestConnect st "host0001"
              (mkConnectReq (Some "c1") None "Screen" None None) zeros 2000
              _ Hh) as [Hno _].
  destruct (C7_requestConnect st "host0001" viewer zeros 2000 _ Hh)
    as [_ Hviewer].
  destruct (C7_requestConnect st "host0001" anonymous zeros 2000 _ Hh)
    as [_ Hanon].
  split; [|split].
  - apply Hno. intros (s & Hin & Hname & Hen).
    apply list_elem_of_In in Hin. simpl in Hin.
    destruct Hin as [<-|[<-|[]]]; simpl in *; discriminate.
  - destruct (Hviewer Hcam) as (_ & -> & _). reflexivity.
  - destruct (Hanon Hcam) as (_ & _ & _ & _ & _ & -> & _). reflexivity.
Defined.

(** ** Listing the available hosts *)

Lemma enabledSources_nonempty h :
  (0 < length (enabledSources h))%nat ↔
  ∃ s, s ∈ h_sources h ∧ src_enabled s = true.
Proof.
  unfold enabledSources. split.
  - destruct (List.filter _ _) as [|s l] eqn:Hf; simpl; [lia|]. intros _.
    assert (In s (List.filter src_enabled (h_sources h))) as Hin
      by (rewrite Hf; by left).
    apply filter_In in Hin as [Hin Hen]. exists s.
    by rewrite list_elem_of_In.
  - intros (s & Hin%list_elem_of_In & Hen).
    assert (In s (List.filter src_enabled (h_sources h))) as Hin'
      by (by apply filter_In).
    destruct (List.filter _ _); [done | simpl; lia].
Qed.

Lemma available_Some now hostId h v :
  available now (hostId, h) = Some v ↔
  now - h_lastHeartbeat h < 45000 ∧
  (∃ s, s ∈ h_sources h ∧ src_enabled s = true) ∧
  v = host_view hostId h.
Proof.
  unfold available. rewrite <- enabledSources_nonempty.
  change HOST_TIMEOUT_MS with 45000.
  repeat case_bool_decide; split;
    first [ by intros [= <-] | by intros (? & ? & ->) | done | tauto ].
Qed.

Lemma available_hostId now kv v :
  available now kv = Some v → v_hostId v = kv.1.
Proof. destruct kv as [i h]. by intros (_ & _ & ->)%available_Some. Qed.

Lemma omap_available_sublist now (l : list (string * Host)) :
  sublist (map v_hostId (omap (available now) l)) (map fst l).
Proof.
  induction l as [|kv l IH]; simpl; [constructor|].
  destruct (available now kv) as [v|] eqn:Hv; simpl.
  - rewrite (available_hostId _ _ _ Hv). by constructor.
  - by constructor.
Qed.

(** C8: the answer of GET /api/hosts at time [now] holds one entry for
    each registered host whose last heartbeat is less than 45000 ms old
    and that has an enabled source, and nothing else.  A host whose last
    heartbeat is 45000 ms old or older is left out although it is still
    in the registry. *)
Theorem C8_listAvailableHosts st now :
  (∀ v, v ∈ listAvailableHosts now st ↔
        ∃ hostId h,
          hosts st !! hostId = Some h ∧
          now - h_lastHeartbeat h < 45000 ∧
          (∃ s, s ∈ h_sources h ∧ src_enabled s = true) ∧
          v = host_view hostId h) ∧
  NoDup (map v_hostId (listAvailableHosts now st)) ∧
  (∀ hostId h,
     hosts st !! hostId = Some h → 45000 ≤ now - h_lastHeartbeat h →
     hostId ∉ map v_hostId (listAvailableHosts now st)).
Proof.
  assert (∀ v, v ∈ listAvailableHosts now st ↔
        ∃ hostId h,
          hosts st !! hostId = Some h ∧
          now - h_lastHeartbeat h < 45000 ∧
          (∃ s, s ∈ h_sources h ∧ src_enabled s = true) ∧
          v = host_view hostId h) as Hiff.
  { intros v. unfold listAvailableHosts. rewrite list_elem_of_omap. split.
    - intros ([hostId h] & Hin%elem_of_map_to_list & Hv%available_Some).
      by exists hostId, h.
    - intros (hostId & h & Hh & Hv). exists (hostId, h).
      split; [by apply elem_of_map_to_list | by apply available_Some]. }
  split; [done|]. split.
  - eapply sublist_NoDup; [|apply omap_available_sublist].
    apply NoDup_fst_map_to_list.
  - intros hostId h Hh Hold Hin.
    apply list_elem_of_In, in_map_iff in Hin as (v & <- & Hv).
    apply list_elem_of_In, Hiff in Hv as (hostId' & h' & Hh' & Hfresh & _ & ->).
    simpl in Hh. rewrite Hh' in Hh. injection Hh as ->. lia.
Qed.

(** The sweep is what takes such a host out of the registry: it drops
    the hosts whose last heartbeat is more than 45000 ms old. *)
Lemma hostSweep_lookup st now hostId :
  hosts (hostSweep now st) !! hostId =
  match hosts st !! hostId with
  | Some h => if bool_decide (now - h_lastHeartbeat h > 45000)
              then None else Some h
  | None => None
  end.
Proof.
  unfold hostSweep. simpl.
  destruct (hosts st !! hostId) as [h|] eqn:Hh.
  - case_bool_decide.
    + apply map_lookup_filter_None. right. intros h' Hh'. simpl.
      rewrite Hh in Hh'. injection Hh' as <-. tauto.
    + apply map_lookup_filter_Some. split; [done|]. simpl. done.
  - apply map_lookup_filter_None. by left.
Qed.

(** ** Registering a host again *)

(** C10: registerHost with the id of a registered host stores a fresh
    entry under that id.  The entry keeps the old registeredAt, takes
    everything else from the request and the clock, and starts with an
    empty list of connection requests, so that a heartbeat sent right
    after it reports no pending client, whatever was queued before. *)
Theorem C10_registerHost_again st req clientIP generated now id name sources
    old :
  rh_hostId req = Some id → id ≠ "" →
  rh_computerName req = Some name → name ≠ "" →
  rh_sources req = Some sources →
  hosts st !! id = Some old →
  let res := registerHost req clientIP generated now st in
  let ip := Js.or_else (rh_publicIP req) clientIP in
  res.2 = Ok (HostRegistered id ip) ∧
  hosts res.1 !! id =
    Some (mkHost id name sources ip
            (if Js.truthy_num (rh_publicPort req)
             then default 5961 (rh_publicPort req) else 5961)
            (h_registeredAt old) now []) ∧
  (∀ other, other ≠ id → hosts res.1 !! other = hosts st !! other) ∧
  (∀ publicIP publicPort srcs ip' now',
     (heartbeat id publicIP publicPort srcs ip' now' res.1).2
       = Ok (PendingClients [])).
Proof.
  intros Hid Hne Hname Hname_ne Hsrc Hold res ip.
  assert (res = (set_hosts
                   (insert id
                      (mkHost id name sources ip
                         (if Js.truthy_num (rh_publicPort req)
                          then default 5961 (rh_publicPort req) else 5961)
                         (h_registeredAt old) now [])) st,
                 Ok (HostRegistered id ip))) as ->.
  { unfold res, registerHost. rewrite Hsrc, Hname, Hid. simpl.
    apply truthy_str_spec in Hne as ->.
    apply truthy_str_spec in Hname_ne as ->. simpl.
    by rewrite Hold. }
  cbn [fst snd]. split; [done|]. split; [apply lookup_insert_eq|].
  split; [intros other Hother; by apply lookup_insert_ne|].
  intros publicIP publicPort srcs ip' now'. unfold heartbeat.
  cbn [set_hosts hosts]. by rewrite lookup_insert_eq.
Qed.

Lemma C10_registerHost_again_witness :
  let st := run registry_trace init in
  (heartbeat "host0001" None None None None 3000 st).2
    = Ok (PendingClients
            [mkPending "c1" "Viewer" (Some "198.51.100.7") (Some 5000)
                       "Camera 1"]) ∧
  (heartbeat "host0001" None None None None 3000
     (registerHost studio None "gggggggggggggggg" 2500 st).1).2
    = Ok (PendingClients []).
Proof.
  intros st. split; [reflexivity|].
  refine (proj2 (proj2 (proj2
    (C10_registerHost_again st studio None "gggggggggggggggg" 2500
       "host0001" "Studio PC" [camera; screen]
       (mkHost "host0001" "Studio PC" [camera; screen] (Some "203.0.113.5")
               5961 1000 1000
               [mkRequest "c1" "Viewer" "Camera 1" (Some "198.51.100.7")
                          (Some 5000) 2000 false])
       eq_refl _ eq_refl _ eq_refl eq_refl))) None None None None 3000);
    discriminate.
Defined.

(** ** Endpoint discovery *)


Lemma flat_map_if {A B} (f : A → bool) (g : A → B) (l : list A) :
  flat_map (λ x, if f x then [g x] else []) l = map g (List.filter f l).
Proof.
  induction l as [|x l IH]; simpl; [done|].
  rewrite IH. by destruct (f x).
Qed.





(** ** Scenarios *)

(** Of the three hosts of [listing_trace] only the laptop is listed at
    time 60000; the stale host is still in the registry and goes with
    the sweep. *)
Example listing_at_60000 :
  listAvailableHosts 60000 (run listing_trace init) =
    [mkHostView "abcdefgh01234567" "Laptop" ["Camera 1"] true 58000] ∧
  is_Some (hosts (run listing_trace init) !! "host0001") ∧
  hosts (hostSweep 60000 (run listing_trace init)) !! "host0001" = None.
Proof. vm_compute. split; [done|]. split; [by eexists | done]. Qed.

(** The end-to-end scenario: the client registers, then the host; the
    client hears [host_online]; an offer addressed to the client arrives
    with the host's id; when the host closes, the client hears
    [host_offline] and the session waits again. *)
Example end_to_end :
  let st0 := run [ CreateSession (Some "h1") (Some "Studio A")
                                 (Some ["Camera 1"]) zeros 0;
                   WsConnect "0.xxxxxhost01";
                   WsConnect "0.xxxxxcli001";
                   WsMessage "cli001" (register "client" "AAAAAA") ] init in
  let r1 := handleSignal "host01" (register "host" "AAAAAA") st0 in
  let direct := mkSignal "offer" None None (Some "cli001") "sdp" in
  let r2 := handleSignal "host01" direct r1.1 in
  let r3 := handleDisconnect "host01" r2.1 in
  r1.2 = [ToConn "cli001" MHostOnline;
          Reply (MRegistered (Some "host") (Some "AAAAAA"))] ∧
  r2.2 = [ToConn "cli001" (MForward direct "host01")] ∧
  r3.2 = [ToConn "cli001" MHostOffline] ∧
  s_status <$> sessions r3.1 !! "AAAAAA" = Some Waiting ∧
  s_host <$> sessions r3.1 !! "AAAAAA" = Some None.
Proof. vm_compute. done. Qed.

(** ** Sweeps *)

Lemma elem_of_listAvailableHosts st now v :
  v ∈ listAvailableHosts now st ↔
  ∃ hostId h,
    hosts st !! hostId = Some h ∧
    now - h_lastHeartbeat h < 45000 ∧
    (∃ s, s ∈ h_sources h ∧ src_enabled s = true) ∧
    v = host_view hostId h.
Proof.
  unfold listAvailableHosts. rewrite list_elem_of_omap. split.
  - intros ([hostId h] & Hin%elem_of_map_to_list & Hv%available_Some).
    by exists hostId, h.
  - intros (hostId & h & Hh & Hv). exists (hostId, h).
    split; [by apply elem_of_map_to_list | by apply available_Some].
Qed.

(** X1: the session sweep keeps a session exactly when it is at most
    1800000 ms old, whatever its status and membership, and touches
    neither the connections nor the hosts: the connections of a removed
    session stay in the live table, and joining by its code fails from
    then on. *)
Theorem sessionSweep_hard_ttl st now c :
  sessions (sessionSweep now st) !! c =
    match sessions st !! c with
    | Some s => if bool_decide (now - s_createdAt s ≤ 1800000)
                then Some s else None
    | None => None
    end ∧
  connections (sessionSweep now st) = connections st ∧
  hosts (sessionSweep now st) = hosts st ∧
  (∀ s, sessions st !! c = Some s → 1800000 < now - s_createdAt s →
        joinSession (Some c) (sessionSweep now st)
          = Failed 404 "Session not found. Please check the code.").
Proof.
  assert (sessions (sessionSweep now st) !! c =
    match sessions st !! c with
    | Some s => if bool_decide (now - s_createdAt s ≤ 1800000)
                then Some s else None
    | None => None
    end) as Hlook.
  { unfold sessionSweep. cbn [set_sessions sessions].
    destruct (sessions st !! c) as [s|] eqn:Hs.
    - case_bool_decide.
      + apply map_lookup_filter_Some. split; [done|]. simpl.
        change SESSION_TTL_MS with 1800000. lia.
      + apply map_lookup_filter_None. right. intros s' Hs'. simpl.
        rewrite Hs in Hs'. injection Hs' as <-.
        change SESSION_TTL_MS with 1800000. lia.
    - apply map_lookup_filter_None. by left. }
  split; [done|]. split; [done|]. split; [done|].
  intros s Hs Hold. unfold joinSession, getSession.
  change (Some c ≫= _) with (sessions (sessionSweep now st) !! c).
  rewrite Hlook, Hs. by rewrite bool_decide_eq_false_2 by lia.
Qed.

(** X2: the host sweep keeps a host exactly when its last heartbeat is
    at most 45000 ms old, which never changes what GET /api/hosts
    answers at that moment.  A host whose heartbeat is exactly 45000 ms
    old is kept by the sweep and left out of the listing. *)
Theorem hostSweep_keeps_listing st now :
  (∀ hostId,
     hosts (hostSweep now st) !! hostId =
       match hosts st !! hostId with
       | Some h => if bool_decide (now - h_lastHeartbeat h ≤ 45000)
                   then Some h else None
       | None => None
       end) ∧
  (∀ v, v ∈ listAvailableHosts now (hostSweep now st) ↔
        v ∈ listAvailableHosts now st) ∧
  (∀ hostId h,
     hosts st !! hostId = Some h → now - h_lastHeartbeat h = 45000 →
     hosts (hostSweep now st) !! hostId = Some h ∧
     hostId ∉ map v_hostId (listAvailableHosts now st)).
Proof.
  assert (∀ hostId,
     hosts (hostSweep now st) !! hostId =
       match hosts st !! hostId with
       | Some h => if bool_decide (now - h_lastHeartbeat h ≤ 45000)
                   then Some h else None
       | None => None
       end) as Hlook.
  { intros hostId. rewrite hostSweep_lookup.
    destruct (hosts st !! hostId) as [h|]; [|done].
    repeat case_bool_decide; first [done | lia]. }
  split; [done|]. split.
  - intros v. rewrite !elem_of_listAvailableHosts. split.
    + intros (hostId & h & Hh & Hrest). exists hostId, h.
      split; [|done]. rewrite Hlook in Hh.
      destruct (hosts st !! hostId) as [h'|]; [|done].
      by case_bool_decide.
    + intros (hostId & h & Hh & Hfresh & Hrest). exists hostId, h.
      split; [|done]. rewrite Hlook, Hh.
      by rewrite bool_decide_eq_true_2 by lia.
  - intros hostId h Hh Hage. split.
    + rewrite Hlook, Hh. by rewrite bool_decide_eq_true_2 by lia.
    + intros Hin.
      apply list_elem_of_In, in_map_iff in Hin as (v & <- & Hv).
      apply list_elem_of_In, elem_of_listAvailableHosts in Hv
        as (hostId' & h' & Hh' & Hfresh & _ & ->).
      simpl in Hh. rewrite Hh' in Hh. injection Hh as ->. lia.
Qed.

(** ** Registering and refreshing hosts *)

(** X3: registerHost without a computer name (missing or empty) or
    without a sources array answers 400 and leaves the state as it
    is. *)
Theorem registerHost_rejects st req clientIP generated now :
  rh_sources req = None ∨ Js.truthy (rh_computerName req) = false →
  registerHost req clientIP generated now st =
    (st, Err 400 "computerName and sources array required").
Proof.
  unfold registerHost. intros [->| ->]; [done|].
  by destruct (rh_sources req).
Qed.

Lemma registerHost_rejects_witness :
  registerHost (mkRegisterHostReq (Some "host0001") (Some "")
                                  (Some [camera]) None None)
               None "gggggggggggggggg" 1000 init =
    (init, Err 400 "computerName and sources array required").
Proof. apply registerHost_rejects. right. reflexivity. Defined.

(** The id under which registerHost stores the host. *)
Lemma registerHost_accepts st req clientIP generated now sources :
  rh_sources req = Some sources →
  Js.truthy (rh_computerName req) = true →
  ∃ id h,
    registerHost req clientIP generated now st =
      (set_hosts (insert id h) st,
       Ok (HostRegistered id (Js.or_else (rh_publicIP req) clientIP))) ∧
    id = (if Js.truthy (rh_hostId req)
          then default generated (rh_hostId req) else generated) ∧
    h_hostId h = id ∧ h_sources h = sources ∧ h_lastHeartbeat h = now ∧
    h_connectedClients h = [] ∧
    h_computerName h = default "" (rh_computerName req) ∧
    h_publicPort h ≠ 0 ∧
    h_registeredAt h = match hosts st !! id with
                       | Some old => h_registeredAt old
                       | None => now
                       end.
Proof.
  intros Hsrc Hname. unfold registerHost. rewrite Hsrc, Hname. simpl.
  eexists _, _. split; [reflexivity|]. simpl.
  repeat split; try done.
  destruct (rh_publicPort req) as [n|]; simpl; [|done].
  destruct (n =? 0) eqn:Hn; simpl; [done|]. by apply Z.eqb_neq.
Qed.

(** X4: a host registered at time [now] with an enabled source is in
    the answer of GET /api/hosts at every time less than 45000 ms
    later, under the id of the response, with its enabled sources and
    [now] as lastSeen. *)
Theorem registerHost_then_listed st req clientIP generated now sources now' :
  rh_sources req = Some sources →
  Js.truthy (rh_computerName req) = true →
  (∃ s, s ∈ sources ∧ src_enabled s = true) →
  now' - now < 45000 →
  let res := registerHost req clientIP generated now st in
  ∃ id ip v,
    res.2 = Ok (HostRegistered id ip) ∧
    v ∈ listAvailableHosts now' res.1 ∧
    v_hostId v = id ∧
    v_sources v = map src_name (List.filter src_enabled sources) ∧
    v_lastSeen v = now.
Proof.
  intros Hsrc Hname Hen Hfresh res.
  destruct (registerHost_accepts st req clientIP generated now sources
              Hsrc Hname)
    as (id & h & Hres & _ & _ & Hs & Hhb & _).
  unfold res. rewrite Hres. cbn [fst snd].
  exists id, (Js.or_else (rh_publicIP req) clientIP), (host_view id h).
  split; [done|]. split.
  - apply elem_of_listAvailableHosts. exists id, h.
    cbn [set_hosts hosts]. rewrite lookup_insert_eq, Hhb, Hs. done.
  - unfold host_view, enabledSources. simpl. by rewrite Hs, Hhb.
Qed.

Lemma registerHost_then_listed_witness :
  ∃ v, v ∈ listAvailableHosts 40000
             (registerHost studio None "gggggggggggggggg" 1000 init).1 ∧
       v_hostId v = "host0001" ∧ v_sources v = ["Camera 1"].
Proof.
  destruct (registerHost_then_listed init studio None "gggggggggggggggg"
              1000 [camera; screen] 40000 eq_refl eq_refl)
    as (id & ip & v & Hres & Hin & Hid & Hsrc & _).
  - exists camera. split; [by left | done].
  - lia.
  - exists v. split; [done|]. split; [|done].
    rewrite Hid. simpl in Hres. by injection Hres as <- _.
Defined.

Lemma heartbeat_known st hostId publicIP publicPort sources clientIP now h :
  hosts st !! hostId = Some h →
  ∃ h',
    heartbeat hostId publicIP publicPort sources clientIP now st =
      (set_hosts (insert hostId h') st,
       Ok (PendingClients (pendingClients h))) ∧
    h_hostId h' = h_hostId h ∧ h_computerName h' = h_computerName h ∧
    h_registeredAt h' = h_registeredAt h ∧
    h_connectedClients h' = h_connectedClients h ∧
    h_lastHeartbeat h' = now ∧
    h_sources h' = default (h_sources h) sources ∧
    h_publicPort h' = match publicPort with
                      | Some n => if n =? 0 then h_publicPort h else n
                      | None => h_publicPort h
                      end ∧
    h_publicIP h' = if Js.truthy (Js.or_else publicIP clientIP)
                    then Js.or_else publicIP clientIP else h_publicIP h.
Proof.
  intros Hh. unfold heartbeat. rewrite Hh.
  eexists. split; [reflexivity|]. simpl. repeat split.
  destruct publicPort as [n|]; simpl; [|done]. by destruct (n =? 0).
Qed.

(** X5: a heartbeat for a registered host answers with the requests
    that are not acknowledged, in queue order, and rewrites the entry:
    lastHeartbeat becomes [now]; the sources are replaced when the body
    has sources, the port when the body has a port other than 0; the
    address becomes the publicIP of the body if that is non-empty,
    otherwise the address the request came from ([getClientIP]) if that
    is non-empty, and stays only when both are missing or empty.  Id,
    name, registeredAt and the queue stay, and so does every other
    host. *)
Theorem heartbeat_refreshes st hostId publicIP publicPort sources clientIP
    now h :
  hosts st !! hostId = Some h →
  let res := heartbeat hostId publicIP publicPort sources clientIP now st in
  res.2 = Ok (PendingClients
                (map pending_view
                     (List.filter (λ r, negb (r_acknowledged r))
                                  (h_connectedClients h)))) ∧
  (∃ h', hosts res.1 !! hostId = Some h' ∧
         h_lastHeartbeat h' = now ∧
         h_hostId h' = h_hostId h ∧ h_computerName h' = h_computerName h ∧
         h_registeredAt h' = h_registeredAt h ∧
         h_connectedClients h' = h_connectedClients h ∧
         h_sources h' = default (h_sources h) sources ∧
         h_publicPort h' = match publicPort with
                           | Some n => if n =? 0 then h_publicPort h else n
                           | None => h_publicPort h
                           end ∧
         h_publicIP h' = if Js.truthy publicIP then publicIP
                         else if Js.truthy clientIP then clientIP
                         else h_publicIP h) ∧
  (∀ other, other ≠ hostId → hosts res.1 !! other = hosts st !! other) ∧
  sessions res.1 = sessions st ∧ connections res.1 = connections st.
Proof.
  intros Hh res.
  destruct (heartbeat_known st hostId publicIP publicPort sources clientIP
              now h Hh) as (h' & Hres & Hfields).
  unfold res. rewrite Hres. cbn [fst snd set_hosts hosts sessions connections].
  split; [done|]. split.
  - exists h'. rewrite lookup_insert_eq.
    destruct Hfields as (? & ? & ? & ? & ? & ? & ? & Hip).
    repeat split; try done. rewrite Hip. unfold Js.or_else.
    destruct (Js.truthy publicIP) eqn:Hp; [by rewrite Hp | done].
  - split; [|done]. intros other Hne. by apply lookup_insert_ne.
Qed.

Lemma heartbeat_refreshes_witness :
  let st := run registry_trace init in
  (∃ h', hosts (heartbeat "host0001" (Some "") (Some 0) None
                          (Some "198.51.100.9") 9000 st).1
           !! "host0001" = Some h' ∧
         h_lastHeartbeat h' = 9000 ∧ h_publicPort h' = 5961 ∧
         h_publicIP h' = Some "198.51.100.9") ∧
  (∃ h', hosts (heartbeat "host0001" (Some "") None None (Some "") 9000 st).1
           !! "host0001" = Some h' ∧
         h_publicIP h' = Some "203.0.113.5").
Proof.
  intros st.
  assert (hosts st !! "host0001" =
          Some (mkHost "host0001" "Studio PC" [camera; screen]
                  (Some "203.0.113.5") 5961 1000 1000
                  [mkRequest "c1" "Viewer" "Camera 1" (Some "198.51.100.7")
                             (Some 5000) 2000 false])) as Hh by reflexivity.
  split.
  - destruct (heartbeat_refreshes st "host0001" (Some "") (Some 0) None
                (Some "198.51.100.9") 9000 _ Hh)
      as (_ & (h' & Hh' & Hhb & _ & _ & _ & _ & _ & Hport & Hip) & _).
    exists h'. by repeat split.
  - destruct (heartbeat_refreshes st "host0001" (Some "") None None
                (Some "") 9000 _ Hh)
      as (_ & (h' & Hh' & _ & _ & _ & _ & _ & _ & _ & Hip) & _).
    exists h'. by split.
Defined.

(** X6: a heartbeat at time [now] puts a host that has an enabled
    source (after the update of its sources) into the answer of
    GET /api/hosts for the next 45000 ms, however old its previous
    heartbeat was; for an unknown id it answers 404 and changes
    nothing. *)
Theorem heartbeat_then_listed st hostId publicIP publicPort sources clientIP
    now now' :
  let res := heartbeat hostId publicIP publicPort sources clientIP now st in
  (hosts st !! hostId = None →
     res = (st, Err 404 "Host not found. Please re-register.")) ∧
  (∀ h, hosts st !! hostId = Some h →
        (∃ s, s ∈ default (h_sources h) sources ∧ src_enabled s = true) →
        now' - now < 45000 →
        ∃ v, v ∈ listAvailableHosts now' res.1 ∧
             v_hostId v = hostId ∧ v_lastSeen v = now).
Proof.
  intros res. split.
  - intros Hnone. unfold res, heartbeat. by rewrite Hnone.
  - intros h Hh Hen Hfresh.
    destruct (heartbeat_known st hostId publicIP publicPort sources clientIP
                now h Hh) as (h' & Hres & _ & _ & _ & _ & Hhb & Hsrc & _).
    unfold res. rewrite Hres. cbn [fst].
    exists (host_view hostId h'). split; [|by rewrite <- Hhb].
    apply elem_of_listAvailableHosts. exists hostId, h'.
    cbn [set_hosts hosts]. rewrite lookup_insert_eq, Hhb, Hsrc. done.
Qed.

(** ** Connection requests *)

Lemma pendingClients_push r h :
  pendingClients (push_request r h) =
  pendingClients h ++
    (if r_acknowledged r then [] else [pending_view r]).
Proof.
  unfold pendingClients, push_request. simpl.
  rewrite List.filter_app, map_app. simpl.
  by destruct (r_acknowledged r).
Qed.

Lemma acknowledge_first_middle clientId l r t :
  Forall (λ x, r_clientId x ≠ clientId) l → r_clientId r = clientId →
  acknowledge_first clientId (l ++ r :: t) = l ++ set_acknowledged r :: t.
Proof.
  intros Hl Hr. induction Hl as [|x l Hx _ IH]; simpl.
  - by rewrite Hr, String.eqb_refl.
  - apply String.eqb_neq in Hx as ->. by rewrite IH.
Qed.

Lemma pendingClients_acknowledged l r t h :
  pendingClients (with_requests (l ++ set_acknowledged r :: t) h) =
  pendingClients (with_requests (l ++ t) h).
Proof.
  unfold pendingClients. simpl. by rewrite !List.filter_app.
Qed.

Lemma acknowledge_known st hostId clientId h :
  hosts st !! hostId = Some h →
  acknowledge hostId clientId st =
    (set_hosts
       (insert hostId
          (with_requests
             (acknowledge_first clientId (h_connectedClients h)) h)) st,
     Ok Plain).
Proof. intros Hh. unfold acknowledge. by rewrite Hh. Qed.

(** X7: a connection request for a shared source shows up as the last
    pending client of the host's next heartbeat; once it is
    acknowledged, the heartbeat reports what it reported before the
    request, provided no earlier request of the host carries the same
    client id. *)
Theorem request_acknowledge_roundtrip st hostId req rnd now h clientId :
  hosts st !! hostId = Some h →
  shares h (cr_sourceName req) →
  r_clientId (connectionRequest req rnd now) = clientId →
  let st1 := (requestConnect hostId req rnd now st).1 in
  let st2 := (acknowledge hostId clientId st1).1 in
  pending_of st1 hostId =
    Some (pendingClients h ++ [pending_view (connectionRequest req rnd now)]) ∧
  (Forall (λ r, r_clientId r ≠ clientId) (h_connectedClients h) →
   pending_of st2 hostId = Some (pendingClients h)).
Proof.
  intros Hh Hsh Hid st1 st2.
  destruct (findSource (cr_sourceName req) h) as [s|] eqn:Hfind;
    [|by apply findSource_None in Hfind].
  assert (hosts st1 !! hostId
          = Some (push_request (connectionRequest req rnd now) h)) as Hh1.
  { unfold st1.
    rewrite (requestConnect_shared _ _ _ _ _ _ _ Hh Hfind).
    cbn [fst set_hosts hosts]. apply lookup_insert_eq. }
  split.
  - unfold pending_of. rewrite Hh1. simpl. by rewrite pendingClients_push.
  - intros Hfresh. unfold pending_of, st2.
    rewrite (acknowledge_known _ _ _ _ Hh1).
    cbn [fst set_hosts hosts]. rewrite lookup_insert_eq. simpl.
    rewrite (acknowledge_first_middle _ _ _ [] Hfresh Hid).
    change (with_requests ?l (push_request ?r h)) with (with_requests l h).
    rewrite pendingClients_acknowledged, app_nil_r.
    by destruct h.
Qed.

Lemma request_acknowledge_roundtrip_witness :
  let st := run [RegisterHost studio None "gggggggggggggggg" 1000] init in
  pending_of (requestConnect "host0001" viewer zeros 2000 st).1 "host0001"
    = Some [mkPending "c1" "Viewer" (Some "198.51.100.7") (Some 5000)
                      "Camera 1"] ∧
  pending_of
    (acknowledge "host0001" "c1"
       (requestConnect "host0001" viewer zeros 2000 st).1).1 "host0001"
    = Some [].
Proof.
  intros st.
  destruct (request_acknowledge_roundtrip st "host0001" viewer zeros 2000
              (mkHost "host0001" "Studio PC" [camera; screen]
                      (Some "203.0.113.5") 5961 1000 1000 [])
              "c1" eq_refl) as [H1 H2].
  - exists camera. split; [by left | done].
  - reflexivity.
  - split; [exact H1|]. apply H2. constructor.
Defined.

(** X8: acknowledge marks one request only, the first of that client.
    After two identical connection requests and one acknowledge the
    second request is still reported as pending by the heartbeat. *)
Theorem acknowledge_marks_first_only st hostId req rnd now h clientId :
  hosts st !! hostId = Some h →
  shares h (cr_sourceName req) →
  r_clientId (connectionRequest req rnd now) = clientId →
  Forall (λ r, r_clientId r ≠ clientId) (h_connectedClients h) →
  let st1 := (requestConnect hostId req rnd now st).1 in
  let st2 := (requestConnect hostId req rnd now st1).1 in
  let st3 := (acknowledge hostId clientId st2).1 in
  pending_of st3 hostId =
    Some (pendingClients h ++ [pending_view (connectionRequest req rnd now)]).
Proof.
  intros Hh Hsh Hid Hfresh st1 st2 st3.
  destruct (findSource (cr_sourceName req) h) as [s|] eqn:Hfind;
    [|by apply findSource_None in Hfind].
  set (r := connectionRequest req rnd now) in *.
  assert (hosts st1 !! hostId = Some (push_request r h)) as Hh1.
  { unfold st1. rewrite (requestConnect_shared _ _ _ _ _ _ _ Hh Hfind).
    cbn [fst set_hosts hosts]. apply lookup_insert_eq. }
  assert (hosts st2 !! hostId = Some (push_request r (push_request r h)))
    as Hh2.
  { unfold st2. rewrite (requestConnect_shared _ _ _ _ _ _ s Hh1 Hfind).
    cbn [fst set_hosts hosts]. apply lookup_insert_eq. }
  unfold pending_of, st3. rewrite (acknowledge_known _ _ _ _ Hh2).
  cbn [fst set_hosts hosts]. rewrite lookup_insert_eq. simpl.
  rewrite <- app_assoc. simpl.
  rewrite (acknowledge_first_middle _ _ _ [r] Hfresh Hid).
  change (with_requests ?l (push_request r (push_request r h)))
    with (with_requests l h).
  rewrite pendingClients_acknowledged.
  change (with_requests (h_connectedClients h ++ [r]) h)
    with (push_request r h).
  by rewrite pendingClients_push.
Qed.

Lemma acknowledge_marks_first_only_witness :
  let st := run [RegisterHost studio None "gggggggggggggggg" 1000] init in
  pending_of
    (acknowledge "host0001" "c1"
       (requestConnect "host0001" viewer zeros 2000
          (requestConnect "host0001" viewer zeros 2000 st).1).1).1 "host0001"
    = Some [mkPending "c1" "Viewer" (Some "198.51.100.7") (Some 5000)
                      "Camera 1"].
Proof.
  intros st.
  refine (acknowledge_marks_first_only st "host0001" viewer zeros 2000
            (mkHost "host0001" "Studio PC" [camera; screen]
                    (Some "203.0.113.5") 5961 1000 1000 [])
            "c1" eq_refl _ eq_refl _).
  - exists camera. split; [by left | done].
  - constructor.
Defined.

Lemma find_acknowledge_first clientId l :
  List.find (λ c, String.eqb (r_clientId c) clientId)
            (acknowledge_first clientId l) =
  set_acknowledged
    <$> List.find (λ c, String.eqb (r_clientId c) clientId) l.
Proof.
  induction l as [|x l IH]; simpl; [done|].
  destruct (String.eqb (r_clientId x) clientId) eqn:Hx; simpl.
  - by rewrite Hx.
  - by rewrite Hx.
Qed.

Lemma find_clientId_None clientId l :
  List.find (λ c, String.eqb (r_clientId c) clientId) l = None ↔
  Forall (λ r, r_clientId r ≠ clientId) l.
Proof.
  induction l as [|x l IH]; simpl.
  - split; [constructor | done].
  - destruct (String.eqb (r_clientId x) clientId) eqn:Hx.
    + apply String.eqb_eq in Hx. split; [done|].
      by intros [? _]%Forall_cons.
    + apply String.eqb_neq in Hx. rewrite IH. split.
      * by constructor.
      * by intros [_ ?]%Forall_cons.
Qed.

(** X9: the status poll and acknowledge look at the same request, the
    first one of the client.  Once a client that has a request was
    acknowledged, the poll reports [acknowledged: true], with hostOnline
    computed from the age of the last heartbeat at the time of the poll;
    a client without a request gets 404 before and after. *)
Theorem poll_after_acknowledge st hostId clientId now h :
  hosts st !! hostId = Some h →
  let st' := (acknowledge hostId clientId st).1 in
  (Exists (λ r, r_clientId r = clientId) (h_connectedClients h) →
   pollConnectStatus hostId clientId now st' =
     Found (mkConnectStatus
              (bool_decide (now - h_lastHeartbeat h < 45000))
              (mkEndpoint (h_publicIP h) (h_publicPort h))
              true)) ∧
  (Forall (λ r, r_clientId r ≠ clientId) (h_connectedClients h) →
   pollConnectStatus hostId clientId now st
     = Failed 404 "Connection request not found" ∧
   pollConnectStatus hostId clientId now st'
     = Failed 404 "Connection request not found").
Proof.
  intros Hh st'.
  assert (hosts st' !! hostId =
          Some (with_requests
                  (acknowledge_first clientId (h_connectedClients h)) h))
    as Hh'.
  { unfold st'. rewrite (acknowledge_known _ _ _ _ Hh).
    cbn [fst set_hosts hosts]. apply lookup_insert_eq. }
  split.
  - intros Hex. unfold pollConnectStatus. rewrite Hh'. simpl.
    rewrite find_acknowledge_first.
    destruct (find _ (h_connectedClients h)) as [r|] eqn:Hfind; [done|].
    apply find_clientId_None in Hfind.
    apply Exists_exists in Hex as (r & Hin & Hr).
    by apply (proj1 (Forall_forall _ _) Hfind) in Hin.
  - intros Hnone. unfold pollConnectStatus. rewrite Hh, Hh'. simpl.
    rewrite find_acknowledge_first.
    apply find_clientId_None in Hnone. by rewrite Hnone.
Qed.

Lemma poll_after_acknowledge_witness :
  let st := run registry_trace init in
  pollConnectStatus "host0001" "c1" 50000 st =
    Found (mkConnectStatus false (mkEndpoint (Some "203.0.113.5") 5961)
                           false) ∧
  pollConnectStatus "host0001" "c1" 50000
      (acknowledge "host0001" "c1" st).1 =
    Found (mkConnectStatus false (mkEndpoint (Some "203.0.113.5") 5961)
                           true).
Proof.
  intros st. split; [reflexivity|].
  refine (proj1 (poll_after_acknowledge st "host0001" "c1" 50000
            (mkHost "host0001" "Studio PC" [camera; screen]
               (Some "203.0.113.5") 5961 1000 1000
               [mkRequest "c1" "Viewer" "Camera 1" (Some "198.51.100.7")
                          (Some 5000) 2000 false])
            eq_refl) _).
  by left.
Defined.

(** X10: DELETE /api/hosts/:hostId always answers success, also for an
    unknown id, and deleting twice is deleting once.  Afterwards the
    host is out of the listing and heartbeat, connect, status and
    acknowledge for that id answer 404; its queued requests are gone
    with it.  Every other host is kept. *)
Theorem deleteHost_forgets st hostId :
  let st' := (deleteHost hostId st).1 in
  (deleteHost hostId st).2 = Ok Plain ∧
  (deleteHost hostId st').1 = st' ∧
  hosts st' !! hostId = None ∧
  (∀ other, other ≠ hostId → hosts st' !! other = hosts st !! other) ∧
  (∀ now, hostId ∉ map v_hostId (listAvailableHosts now st')) ∧
  (∀ publicIP publicPort sources clientIP now,
     (heartbeat hostId publicIP publicPort sources clientIP now st').2
       = Err 404 "Host not found. Please re-register.") ∧
  (∀ req rnd now,
     (requestConnect hostId req rnd now st').2
       = Err 404 "Host not found or offline") ∧
  (∀ clientId now,
     pollConnectStatus hostId clientId now st'
       = Failed 404 "Host not found or offline") ∧
  (∀ clientId,
     acknowledge hostId clientId st' = (st', Err 404 "Host not found")).
Proof.
  intros st'.
  assert (hosts st' !! hostId = None) as Hnone by apply lookup_delete_eq.
  split; [done|]. split.
  { unfold st', deleteHost, set_hosts. simpl. f_equal.
    apply delete_id, lookup_delete_eq. }
  split; [done|]. split.
  { intros other Hne. by apply lookup_delete_ne. }
  split.
  { intros now Hin.
    apply list_elem_of_In, in_map_iff in Hin as (v & Heq & Hv).
    apply list_elem_of_In, elem_of_listAvailableHosts in Hv
      as (hostId' & h' & Hh' & _ & _ & ->).
    simpl in Heq. subst hostId'. by rewrite Hnone in Hh'. }
  split; [intros; unfold heartbeat; by rewrite Hnone|].
  split; [intros; unfold requestConnect; by rewrite Hnone|].
  split; [intros; unfold pollConnectStatus; by rewrite Hnone|].
  intros. unfold acknowledge. by rewrite Hnone.
Qed.

(** ** Invariants of the host registry *)

Lemma request_ok_new req rnd now : request_ok (connectionRequest req rnd now).
Proof.
  split; simpl.
  - destruct (cr_clientId req) as [c|]; simpl.
    + destruct (Js.truthy_str c) eqn:Hc; simpl.
      * by apply truthy_str_spec.
      * apply valid_code_nonempty, generateCode_valid.
    + apply valid_code_nonempty, generateCode_valid.
  - destruct (cr_clientName req) as [c|]; simpl; [|done].
    destruct (Js.truthy_str c) eqn:Hc; simpl; [|done].
    by apply truthy_str_spec.
Qed.

Lemma request_ok_acknowledge_first clientId l :
  Forall request_ok l → Forall request_ok (acknowledge_first clientId l).
Proof.
  induction 1 as [|x l Hx Hl IH]; simpl; [constructor|].
  destruct (String.eqb (r_clientId x) clientId); constructor; done.
Qed.

Lemma hosts_ok_step e st :
  map_Forall host_ok (hosts st) → map_Forall host_ok (hosts (step e st)).
Proof.
  intros Hok. destruct e; simpl; try done.
  - destruct (rh_sources req) as [sources|] eqn:Hsrc;
      [|by rewrite registerHost_rejects by (by left)].
    destruct (Js.truthy (rh_computerName req)) eqn:Hname;
      [|by rewrite registerHost_rejects by (by right)].
    destruct (registerHost_accepts st req clientIP generated now sources
                Hsrc Hname)
      as (id & h & -> & _ & Hid & _ & _ & Hq & Hn & Hport & _).
    apply map_Forall_insert_2; [|done].
    split; [done|]. split; [|split; [done|by rewrite Hq]].
    rewrite Hn. destruct (rh_computerName req) as [n|]; [|done].
    by apply truthy_str_spec.
  - destruct (hosts st !! hostId) as [h|] eqn:Hh.
    + destruct (heartbeat_known st hostId publicIP publicPort sources
                  clientIP now h Hh)
        as (h' & -> & Hid & Hn & _ & Hq & _ & _ & Hport & _).
      apply map_Forall_insert_2; [|done].
      destruct (Hok _ _ Hh) as (? & ? & ? & ?).
      split; [congruence|]. split; [congruence|].
      split; [|by rewrite Hq].
      rewrite Hport. destruct publicPort as [n|]; [|done].
      destruct (n =? 0) eqn:Hz; [done|]. by apply Z.eqb_neq.
    + unfold heartbeat. by rewrite Hh.
  - intros id h Hh. apply lookup_delete_Some in Hh as [_ Hh]. by apply Hok.
  - intros id h [Hh _]%map_lookup_filter_Some. by apply Hok.
  - unfold requestConnect.
    destruct (hosts st !! hostId) as [h|] eqn:Hh; [|done].
    destruct (findSource _ _); [|done].
    apply map_Forall_insert_2; [|done].
    destruct (Hok _ _ Hh) as (? & ? & ? & ?).
    repeat split; try done. simpl.
    apply Forall_app. split; [done|].
    constructor; [apply request_ok_new | constructor].
  - unfold acknowledge.
    destruct (hosts st !! hostId) as [h|] eqn:Hh; [|done].
    apply map_Forall_insert_2; [|done].
    destruct (Hok _ _ Hh) as (? & ? & ? & ?).
    repeat split; try done. simpl. by apply request_ok_acknowledge_first.
  - unfold handleSignal. repeat case_match; done.
  - unfold handleDisconnect. repeat case_match; done.
Qed.

(** X11: in every reachable state a host is stored under its own id,
    has a non-empty computer name and a port other than 0, and every
    request in its queue has a non-empty client id and client name. *)
Theorem reachable_hosts_ok st hostId h :
  reachable st → hosts st !! hostId = Some h →
  h_hostId h = hostId ∧ h_computerName h ≠ "" ∧ h_publicPort h ≠ 0 ∧
  Forall (λ r, r_clientId r ≠ "" ∧ r_clientName r ≠ "")
         (h_connectedClients h).
Proof.
  intros Hst. revert hostId h.
  change (map_Forall host_ok (hosts st)).
  induction Hst as [|st e _ IH]; [|by apply hosts_ok_step].
  simpl. apply map_Forall_empty.
Qed.

Lemma reachable_hosts_ok_witness :
  reachable (run registry_trace init) ∧
  Forall (λ r, r_clientId r ≠ "" ∧ r_clientName r ≠ "")
         [mkRequest "c1" "Viewer" "Camera 1" (Some "198.51.100.7")
                    (Some 5000) 2000 false].
Proof.
  split; [apply reachable_run|].
  exact (proj2 (proj2 (proj2
    (reachable_hosts_ok (run registry_trace init) "host0001"
       (mkHost "host0001" "Studio PC" [camera; screen]
          (Some "203.0.113.5") 5961 1000 1000
          [mkRequest "c1" "Viewer" "Camera 1" (Some "198.51.100.7")
                     (Some 5000) 2000 false])
       (reachable_run registry_trace) eq_refl)))).
Defined.

(** ** Signalling: what the claims leave out *)

Lemma notify_all st m l :
  flat_map (notify st m) l = map (λ id, ToConn id m) (List.filter (live st) l).
Proof. unfold notify. apply flat_map_if. Qed.

Lemma live_stamped st connId x conn id :
  connections st !! connId = Some conn →
  live (set_connections (insert connId x) st) id = live st id.
Proof.
  intros Hconn. unfold live. cbn [set_connections connections].
  apply bool_decide_ext. rewrite lookup_insert.
  case_decide as Heq; [|done]. subst id. rewrite Hconn.
  split; intros _; by eexists.
Qed.

Lemma handleSignal_register_found st connId data conn c s :
  d_type data = "register" →
  connections st !! connId = Some conn →
  d_code data = Some c →
  sessions st !! c = Some s →
  let role := d_role data in
  let st1 := set_connections (insert connId (mkConnection role (Some c))) st in
  let registered := [Reply (MRegistered role (Some c))] in
  handleSignal connId data st =
    if is_role role "host" then
      (set_sessions (insert c (with_host (Some connId) Active s)) st1,
       flat_map (notify st1 MHostOnline) (s_clients s) ++ registered)
    else if is_role role "client" then
      (set_sessions
         (insert c (with_clients (s_clients s ++ [connId]) s)) st1,
       notify_host st1 (MClientJoined connId) s ++ registered)
    else (st1, registered).
Proof.
  intros Htype Hconn Hcode Hs role st1 registered.
  unfold handleSignal. rewrite Htype, Hconn, Hcode.
  change (String.eqb "register" "register") with true. cbv iota.
  change (getSession _ (Some c)) with (sessions st !! c).
  by rewrite Hs.
Qed.

Lemma forwardSignal_outputs st fromId data o :
  o ∈ forwardSignal fromId data st →
  ∃ id, o = ToConn id (MForward data fromId) ∧
        is_Some (connections st !! id).
Proof.
  unfold forwardSignal.
  destruct (connections st !! fromId) as [conn|]; [|by intros ?%elem_of_nil].
  destruct (getSession st (c_sessionCode conn)) as [s|];
    [|by intros ?%elem_of_nil].
  destruct (Js.truthy (d_targetId data)).
  - destruct (d_targetId data) as [t|]; [|by intros ?%elem_of_nil].
    unfold notify, live. case_bool_decide; [|by intros ?%elem_of_nil].
    intros ->%list_elem_of_singleton. by exists t.
  - unfold broadcast. rewrite list_elem_of_In, in_flat_map.
    intros ([id|] & _ & Hin); [|done].
    destruct (live st id) eqn:Hlive; simpl in Hin; [|done].
    destruct (negb _); simpl in Hin; [|done].
    destruct Hin as [<-|[]]. exists id. split; [done|].
    by apply bool_decide_eq_true in Hlive.
Qed.

(** X12: only a register message writes the state.  Every other
    message leaves sessions, connections and hosts as they are; the
    sender hears back only after a ping (one pong); and whatever is
    relayed goes to live connections, unchanged and with the sender's
    id attached. *)
Theorem handleSignal_frame st connId data :
  d_type data ≠ "register" →
  let res := handleSignal connId data st in
  res.1 = st ∧
  (∀ m, Reply m ∈ res.2 → m = MPong ∧ d_type data = "ping") ∧
  (d_type data = "ping" → res.2 = [Reply MPong]) ∧
  (∀ id m, ToConn id m ∈ res.2 →
           m = MForward data connId ∧ is_Some (connections st !! id)) ∧
  (∀ a p m, Datagram a p m ∉ res.2).
Proof.
  intros Htype%String.eqb_neq res. unfold res, handleSignal.
  rewrite Htype.
  destruct (is_relayed (d_type data)) eqn:Hrel.
  - destruct (is_relayed_not_register _ Hrel) as [_ Hping].
    cbn [fst snd]. split; [done|]. split.
    { intros m (id & [=] & _)%forwardSignal_outputs. }
    split.
    { intros Heq. rewrite Heq in Hping. discriminate. }
    split.
    { intros id m (id' & [= <- ->] & Hlive)%forwardSignal_outputs. done. }
    intros a p m (id' & [=] & _)%forwardSignal_outputs.
  - destruct (String.eqb (d_type data) "ping") eqn:Hping; cbn [fst snd].
    + apply String.eqb_eq in Hping. split; [done|]. split.
      { by intros m [= <-]%list_elem_of_singleton. }
      split; [done|]. split.
      { by intros id m [=]%list_elem_of_singleton. }
      by intros a p m [=]%list_elem_of_singleton.
    + apply String.eqb_neq in Hping. split; [done|]. split.
      { by intros m ?%elem_of_nil. }
      split; [done|]. split.
      { by intros id m ?%elem_of_nil. }
      by intros a p m ?%elem_of_nil.
Qed.

Lemma handleSignal_frame_witness :
  handleSignal "nobody" (mkSignal "ping" None None None "") init
    = (init, [Reply MPong]).
Proof.
  pose proof (handleSignal_frame init "nobody"
                (mkSignal "ping" None None None "")) as H.
  destruct H as (H1 & _ & H2 & _); [discriminate|].
  rewrite (surjective_pairing (handleSignal _ _ _)).
  by rewrite H1, H2.
Defined.

(** X13: a relayed message with a targetId, sent by a connection whose
    session exists, goes to the connection of that id when it is live
    and is dropped otherwise; nobody else receives it and the sender
    gets no answer.  The target is looked up in the table of all
    connections: it does not have to belong to the sender's session and
    may be the sender itself. *)
Theorem forward_targeted st fromId data conn c s target :
  is_relayed (d_type data) = true →
  d_targetId data = Some target → target ≠ "" →
  connections st !! fromId = Some conn →
  c_sessionCode conn = Some c →
  sessions st !! c = Some s →
  handleSignal fromId data st =
    (st, if bool_decide (is_Some (connections st !! target))
         then [ToConn target (MForward data fromId)] else []).
Proof.
  intros Hrel Htarget Hne Hconn Hcode Hs.
  rewrite handleSignal_relayed by done. f_equal.
  unfold forwardSignal. rewrite Hconn, Hcode. simpl. rewrite Hs, Htarget.
  simpl. by apply truthy_str_spec in Hne as ->.
Qed.

Lemma forward_targeted_witness :
  let st := run (star_trace ++ [WsConnect "0.xxxxxlonely"]) init in
  let direct := mkSignal "answer" None None (Some "lonely") "sdp" in
  connections st !! "lonely" = Some (mkConnection None None) ∧
  handleSignal "cli001" direct st
    = (st, [ToConn "lonely" (MForward direct "cli001")]).
Proof.
  intros st direct. split; [reflexivity|].
  exact (forward_targeted st "cli001" direct
           (mkConnection (Some "client") (Some "AAAAAA")) "AAAAAA"
           (mkSession "AAAAAA" (Some "h1") (Some "Studio A") []
                      (Some "host01") ["cli001"; "cli002"] 0 Active)
           "lonely" eq_refl eq_refl ltac:(discriminate) eq_refl eq_refl
           eq_refl).
Defined.

(** X14: a relayed message from a connection that is unknown, was never
    registered, or is registered for a code that names no session (any
    more) is dropped without an answer, also when it has a targetId. *)
Theorem relay_needs_session st fromId data :
  is_relayed (d_type data) = true →
  (∀ conn, connections st !! fromId = Some conn →
           getSession st (c_sessionCode conn) = None) →
  handleSignal fromId data st = (st, []).
Proof.
  intros Hrel Hnone. rewrite handleSignal_relayed by done. f_equal.
  unfold forwardSignal.
  destruct (connections st !! fromId) as [conn|]; [|done].
  by rewrite (Hnone conn eq_refl).
Qed.

Lemma relay_needs_session_witness :
  let st := sessionSweep 2000000 (run star_trace init) in
  handleSignal "host01" offer st = (st, []).
Proof.
  intros st. apply relay_needs_session; [reflexivity|].
  intros conn Hconn. vm_compute in Hconn. injection Hconn as <-.
  reflexivity.
Defined.



(** X16: when a connection registers as client of an existing session,
    [client_joined] with its id goes to the session's host, if the host
    field is set to a non-empty id whose connection is live, and to no
    other client; the sender gets [registered].  A register message
    with any other role for an existing session joins nothing: the
    session is unchanged, and the sender still gets [registered] and
    carries that role and code afterwards. *)
Theorem register_client_or_other st connId data conn c s :
  d_type data = "register" → d_role data ≠ Some "host" →
  d_code data = Some c →
  connections st !! connId = Some conn →
  sessions st !! c = Some s →
  let res := handleSignal connId data st in
  let registered := Reply (MRegistered (d_role data) (Some c)) in
  connections res.1 !! connId = Some (mkConnection (d_role data) (Some c)) ∧
  (d_role data = Some "client" →
     res.2 = match s_host s with
             | Some h =>
               if Js.truthy_str h && live st h
               then [ToConn h (MClientJoined connId); registered]
               else [registered]
             | None => [registered]
             end) ∧
  (d_role data ≠ Some "client" →
     sessions res.1 = sessions st ∧ res.2 = [registered]).
Proof.
  intros Htype Hrole Hcode Hconn Hs res registered. unfold res.
  rewrite (handleSignal_register_found _ _ _ _ _ _ Htype Hconn Hcode Hs).
  assert (is_role (d_role data) "host" = false) as ->
    by (by apply bool_decide_eq_false_2).
  destruct (is_role (d_role data) "client") eqn:Hclient.
  - apply bool_decide_eq_true in Hclient.
    cbn [fst snd set_sessions set_connections sessions connections].
    split; [apply lookup_insert_eq|].
    split; [|intros Hne; by destruct Hne].
    intros _. unfold notify_host, notify.
    destruct (s_host s) as [h|]; [|done].
    rewrite (live_stamped _ _ _ _ _ Hconn).
    destruct (Js.truthy_str h); [|done]. by destruct (live st h).
  - apply bool_decide_eq_false in Hclient.
    cbn [fst snd set_sessions set_connections sessions connections].
    split; [apply lookup_insert_eq|]. split; [done|]. by intros _.
Qed.

Lemma register_client_or_other_witness :
  let st := run (star_trace ++ [WsConnect "0.xxxxxcli003"]) init in
  (handleSignal "cli003" (register "client" "AAAAAA") st).2
    = [ToConn "host01" (MClientJoined "cli003");
       Reply (MRegistered (Some "client") (Some "AAAAAA"))] ∧
  (handleSignal "cli003" (register "viewer" "AAAAAA") st).2
    = [Reply (MRegistered (Some "viewer") (Some "AAAAAA"))].
Proof.
  intros st.
  destruct (register_client_or_other st "cli003" (register "client" "AAAAAA")
              (mkConnection None None) "AAAAAA"
              (mkSession "AAAAAA" (Some "h1") (Some "Studio A") []
                         (Some "host01") ["cli001"; "cli002"] 0 Active)
              eq_refl ltac:(discriminate) eq_refl eq_refl eq_refl)
    as (_ & H1 & _).
  destruct (register_client_or_other st "cli003" (register "viewer" "AAAAAA")
              (mkConnection None None) "AAAAAA"
              (mkSession "AAAAAA" (Some "h1") (Some "Studio A") []
                         (Some "host01") ["cli001"; "cli002"] 0 Active)
              eq_refl ltac:(discriminate) eq_refl eq_refl eq_refl)
    as (_ & _ & H2).
  split.
  - rewrite (H1 eq_refl). reflexivity.
  - destruct H2 as [_ ->]; [discriminate | reflexivity].
Defined.

(** ** Closing a connection *)

Lemma handleDisconnect_connections st connId :
  connections (handleDisconnect connId st).1 = delete connId (connections st).
Proof. unfold handleDisconnect. repeat case_match; done. Qed.

Lemma handleDisconnect_hosts st connId :
  hosts (handleDisconnect connId st).1 = hosts st.
Proof. unfold handleDisconnect. repeat case_match; done. Qed.

Lemma handleDisconnect_registered st connId role c s :
  connections st !! connId = Some (mkConnection role (Some c)) →
  sessions st !! c = Some s → c ≠ "" →
  handleDisconnect connId st =
    if is_role role "host" then
      (set_connections (delete connId)
         (set_sessions (insert c (with_host None Waiting s)) st),
       flat_map (notify st MHostOffline) (s_clients s))
    else if is_role role "client" then
      let s' := with_clients
                  (List.filter (λ id, negb (String.eqb id connId))
                               (s_clients s)) s in
      (set_connections (delete connId) (set_sessions (insert c s') st),
       notify_host st (MClientLeft connId) s')
    else (set_connections (delete connId) st, []).
Proof.
  intros Hconn Hs Hc. unfold handleDisconnect. rewrite Hconn.
  cbn [c_sessionCode c_role].
  by rewrite (proj2 (truthy_str_spec c) Hc), Hs.
Qed.

Lemma handleDisconnect_outputs st connId :
  (handleDisconnect connId st).2 =
  match connections st !! connId with
  | Some conn =>
    match c_sessionCode conn with
    | Some c =>
      if Js.truthy_str c then
        match sessions st !! c with
        | Some s =>
          if is_role (c_role conn) "host" then
            map (λ id, ToConn id MHostOffline)
                (List.filter (live st) (s_clients s))
          else if is_role (c_role conn) "client" then
            match s_host s with
            | Some h => if Js.truthy_str h && live st h
                        then [ToConn h (MClientLeft connId)] else []
            | None => []
            end
          else []
        | None => []
        end
      else []
    | None => []
    end
  | None => []
  end.
Proof.
  unfold handleDisconnect.
  destruct (connections st !! connId) as [conn|]; [|done].
  destruct (c_sessionCode conn) as [c|]; [|done].
  destruct (Js.truthy_str c); [|done].
  destruct (sessions st !! c) as [s|]; [|done].
  destruct (is_role (c_role conn) "host"); [apply notify_all|].
  destruct (is_role (c_role conn) "client"); [|done].
  cbn [snd]. unfold notify_host, notify. cbn [s_host with_clients].
  destruct (s_host s) as [h|]; [|done].
  destruct (Js.truthy_str h); [|done]. by destruct (live st h).
Qed.

(** X17: closing always takes the connection out of the live table and
    keeps every other connection and the hosts; the only session it can
    change is the one named on the connection, and only for the roles
    host and client.  What is sent is [host_offline] or [client_left]
    with the closing id, to connections that were live before the
    close.  The notices are sent before the connection is deleted, so
    the closing connection is itself addressed in two cases: it leaves
    as host a session that lists it as client, or it leaves as client a
    session whose host it is. *)
Theorem handleDisconnect_frame st connId :
  let res := handleDisconnect connId st in
  connections res.1 !! connId = None ∧
  (∀ other, other ≠ connId →
            connections res.1 !! other = connections st !! other) ∧
  hosts res.1 = hosts st ∧
  (∀ c, (∀ conn, connections st !! connId = Some conn →
                 c_sessionCode conn ≠ Some c ∨
                 (c_role conn ≠ Some "host" ∧ c_role conn ≠ Some "client")) →
        sessions res.1 !! c = sessions st !! c) ∧
  (∀ o, o ∈ res.2 →
        ∃ id, is_Some (connections st !! id) ∧
              (o = ToConn id MHostOffline ∨
               o = ToConn id (MClientLeft connId))) ∧
  (∀ m, ToConn connId m ∈ res.2 ↔
        ∃ conn c s,
          connections st !! connId = Some conn ∧
          c_sessionCode conn = Some c ∧ c ≠ "" ∧
          sessions st !! c = Some s ∧
          ((c_role conn = Some "host" ∧ connId ∈ s_clients s ∧
            m = MHostOffline) ∨
           (c_role conn = Some "client" ∧
            s_host s = Some connId ∧ connId ≠ "" ∧
            m = MClientLeft connId))).
Proof.
  intros res. unfold res.
  rewrite handleDisconnect_connections, handleDisconnect_hosts.
  split; [apply lookup_delete_eq|].
  split; [intros; by apply lookup_delete_ne|].
  split; [done|]. split.
  { intros c Hc. unfold handleDisconnect.
    destruct (connections st !! connId) as [conn|] eqn:Hconn; [|done].
    specialize (Hc conn eq_refl).
    destruct (c_sessionCode conn) as [c0|] eqn:Hcode; [|done].
    destruct (Js.truthy_str c0); [|done].
    destruct (sessions st !! c0) as [s|] eqn:Hs; [|done].
    destruct (is_role (c_role conn) "host") eqn:Hhost.
    { apply bool_decide_eq_true in Hhost.
      cbn [fst set_connections set_sessions sessions].
      apply lookup_insert_ne. intros ->. destruct Hc as [?|[? _]]; done. }
    destruct (is_role (c_role conn) "client") eqn:Hclient; [|done].
    apply bool_decide_eq_true in Hclient.
    cbn [fst set_connections set_sessions sessions].
    apply lookup_insert_ne. intros ->. destruct Hc as [?|[_ ?]]; done. }
  rewrite handleDisconnect_outputs.
  destruct (connections st !! connId) as [conn|] eqn:Hconn; cycle 1.
  { split; [by intros o ?%elem_of_nil|]. intros m.
    split; [by intros ?%elem_of_nil | by intros (? & ? & ? & ? & _)]. }
  destruct (c_sessionCode conn) as [c|] eqn:Hcode; cycle 1.
  { split; [by intros o ?%elem_of_nil|]. intros m.
    split; [by intros ?%elem_of_nil|].
    intros (? & ? & ? & [= <-] & ? & _). congruence. }
  destruct (Js.truthy_str c) eqn:Hc; cycle 1.
  { split; [by intros o ?%elem_of_nil|]. intros m.
    split; [by intros ?%elem_of_nil|].
    intros (? & c' & ? & [= <-] & Hc' & Hne%truthy_str_spec & _).
    congruence. }
  apply truthy_str_spec in Hc.
  destruct (sessions st !! c) as [s|] eqn:Hs; cycle 1.
  { split; [by intros o ?%elem_of_nil|]. intros m.
    split; [by intros ?%elem_of_nil|].
    intros (? & c' & ? & [= <-] & Hc' & _ & Hs' & _). congruence. }
  destruct (is_role (c_role conn) "host") eqn:Hhost.
  { apply bool_decide_eq_true in Hhost. split.
    - intros o Ho. apply list_elem_of_In, in_map_iff in Ho
        as (id & <- & [_ Hlive]%filter_In).
      exists id. split; [by apply bool_decide_eq_true in Hlive | by left].
    - intros m. rewrite list_elem_of_In, in_map_iff. split.
      + intros (id & [= -> <-] & [Hin _]%filter_In).
        exists conn, c, s. repeat split; try done. left.
        split; [done|]. split; [by apply list_elem_of_In | done].
      + intros (conn' & c' & s' & [= <-] & Hc' & _ & Hs' & Hcase).
        assert (c' = c) as -> by congruence.
        assert (s' = s) as -> by congruence.
        destruct Hcase as [(_ & Hin & ->)|(Hcl & _)]; [|congruence].
        exists connId. split; [done|]. apply filter_In.
        split; [by apply list_elem_of_In|].
        unfold live. apply bool_decide_eq_true. by rewrite Hconn. }
  apply bool_decide_eq_false in Hhost.
  destruct (is_role (c_role conn) "client") eqn:Hclient; cycle 1.
  { apply bool_decide_eq_false in Hclient.
    split; [by intros o ?%elem_of_nil|]. intros m.
    split; [by intros ?%elem_of_nil|].
    intros (conn' & ? & ? & [= <-] & _ & _ & _ & [(? & _)|(? & _)]);
      done. }
  apply bool_decide_eq_true in Hclient.
  destruct (s_host s) as [h|] eqn:Hh; cycle 1.
  { split; [by intros o ?%elem_of_nil|]. intros m.
    split; [by intros ?%elem_of_nil|].
    intros (conn' & c' & s' & [= <-] & Hc' & _ & Hs' & Hcase).
    assert (c' = c) as -> by congruence.
    assert (s' = s) as -> by congruence.
    destruct Hcase as [(? & _)|(_ & ? & _)]; [done | congruence]. }
  destruct (Js.truthy_str h && live st h) eqn:Hlive; cycle 1.
  { split; [by intros o ?%elem_of_nil|]. intros m.
    split; [by intros ?%elem_of_nil|].
    intros (conn' & c' & s' & [= <-] & Hc' & _ & Hs' & Hcase).
    assert (c' = c) as -> by congruence.
    assert (s' = s) as -> by congruence.
    destruct Hcase as [(? & _)|(_ & Hh' & Hne & _)]; [done|].
    assert (h = connId) as -> by congruence.
    apply truthy_str_spec in Hne. unfold live in Hlive.
    rewrite Hne, bool_decide_eq_true_2 in Hlive by (by rewrite Hconn).
    done. }
  apply andb_true_iff in Hlive as [Hne%truthy_str_spec Hlive].
  apply bool_decide_eq_true in Hlive. split.
  - intros o ->%list_elem_of_singleton. exists h. split; [done | by right].
  - intros m. rewrite list_elem_of_singleton. split.
    + intros [= <- <-]. exists conn, c, s. repeat split; try done.
      right. by repeat split.
    + intros (conn' & c' & s' & [= <-] & Hc' & _ & Hs' & Hcase).
      assert (c' = c) as -> by congruence.
      assert (s' = s) as -> by congruence.
      destruct Hcase as [(? & _)|(_ & Hh' & _ & ->)]; [done|].
      congruence.
Qed.

Lemma handleDisconnect_frame_witness :
  ToConn "fghijk" MHostOffline
    ∈ (handleDisconnect "fghijk" (run own_client_trace init)).2.
Proof.
  destruct (handleDisconnect_frame (run own_client_trace init) "fghijk")
    as (_ & _ & _ & _ & _ & Hself).
  apply Hself.
  exists (mkConnection (Some "host") (Some "AAAAAA")), "AAAAAA",
         (mkSession "AAAAAA" (Some "h1") (Some "Studio A") []
                    (Some "fghijk") ["fghijk"] 0 Active).
  split; [reflexivity|]. split; [reflexivity|]. split; [discriminate|].
  split; [reflexivity|]. left.
  split; [reflexivity|]. split; [by left | reflexivity].
Defined.

(** X18: when a connection closes whose role is client and whose code
    names a session, every occurrence of its id leaves the client list
    of that session, the other entries keep their order, and
    [client_left] with its id goes to the session's host if the host
    field is set to a non-empty id whose connection is live. *)
Theorem handleDisconnect_client st connId c s :
  connections st !! connId = Some (mkConnection (Some "client") (Some c)) →
  sessions st !! c = Some s → c ≠ "" →
  let res := handleDisconnect connId st in
  let rest := List.filter (λ id, negb (String.eqb id connId)) (s_clients s) in
  sessions res.1 !! c = Some (with_clients rest s) ∧
  (connId ∉ rest) ∧
  (∀ id, id ≠ connId → count_occ string_dec rest id
                        = count_occ string_dec (s_clients s) id) ∧
  res.2 = match s_host s with
          | Some h => if Js.truthy_str h && live st h
                      then [ToConn h (MClientLeft connId)] else []
          | None => []
          end.
Proof.
  intros Hconn Hs Hc res rest. unfold res.
  rewrite (handleDisconnect_registered _ _ _ _ _ Hconn Hs Hc).
  change (is_role (Some "client") "host") with false.
  change (is_role (Some "client") "client") with true. cbv iota.
  cbn [fst snd set_connections set_sessions connections sessions].
  split; [apply lookup_insert_eq|]. split.
  { intros Hin. apply list_elem_of_In, filter_In in Hin as [_ Hin].
    by rewrite String.eqb_refl in Hin. }
  split.
  { intros id Hne. unfold rest.
    induction (s_clients s) as [|x l IH]; simpl; [done|].
    destruct (String.eqb x connId) eqn:Hx; simpl.
    - apply String.eqb_eq in Hx. subst x.
      destruct (string_dec connId id); [congruence | done].
    - destruct (string_dec x id); by rewrite IH. }
  unfold notify_host, notify. simpl s_host.
  destruct (s_host s) as [h|]; [|done].
  destruct (Js.truthy_str h); [|done]. by destruct (live st h).
Qed.

Lemma handleDisconnect_client_witness :
  let st := run (star_trace
                   ++ [WsMessage "cli001" (register "client" "AAAAAA")])
                init in
  s_clients <$> sessions st !! "AAAAAA"
    = Some ["cli001"; "cli002"; "cli001"] ∧
  s_clients <$> sessions (handleDisconnect "cli001" st).1 !! "AAAAAA"
    = Some ["cli002"] ∧
  (handleDisconnect "cli001" st).2 = [ToConn "host01" (MClientLeft "cli001")].
Proof.
  intros st. split; [reflexivity|].
  destruct (handleDisconnect_client st "cli001" "AAAAAA"
              (mkSession "AAAAAA" (Some "h1") (Some "Studio A") []
                         (Some "host01") ["cli001"; "cli002"; "cli001"]
                         0 Active)
              eq_refl eq_refl ltac:(discriminate))
    as (Hs & _ & _ & Hout).
  split; [by rewrite Hs | by rewrite Hout].
Defined.

(** X19: when a connection closes whose role is host and whose code
    names a session, that session loses its host and waits again, and
    every client of the list whose connection is live gets
    [host_offline].  The host field is not compared with the closing
    connection: the session is reset also when another connection has
    registered as its host in the meantime. *)
Theorem handleDisconnect_host_resets st connId c s :
  connections st !! connId = Some (mkConnection (Some "host") (Some c)) →
  sessions st !! c = Some s → c ≠ "" →
  let res := handleDisconnect connId st in
  sessions res.1 !! c = Some (with_host None Waiting s) ∧
  res.2 = map (λ id, ToConn id MHostOffline)
              (List.filter (live st) (s_clients s)).
Proof.
  intros Hconn Hs Hc res. split.
  - by apply handleDisconnect_host.
  - unfold res. rewrite (handleDisconnect_registered _ _ _ _ _ Hconn Hs Hc).
    change (is_role (Some "host") "host") with true. cbv iota.
    cbn [snd]. apply notify_all.
Qed.

Lemma handleDisconnect_host_resets_witness :
  let st := (handleSignal "host02" (register "host" "AAAAAA")
               (run (star_trace ++ [WsConnect "0.xxxxxhost02"]) init)).1 in
  s_host <$> sessions st !! "AAAAAA" = Some (Some "host02") ∧
  sessions (handleDisconnect "host01" st).1 !! "AAAAAA" =
    Some (mkSession "AAAAAA" (Some "h1") (Some "Studio A") []
                    None ["cli001"; "cli002"] 0 Waiting) ∧
  is_Some (connections (handleDisconnect "host01" st).1 !! "host02").
Proof.
  intros st. split; [reflexivity|].
  destruct (handleDisconnect_host_resets st "host01" "AAAAAA"
              (mkSession "AAAAAA" (Some "h1") (Some "Studio A") []
                         (Some "host02") ["cli001"; "cli002"] 0 Active)
              eq_refl eq_refl ltac:(discriminate)) as [Hs _].
  split; [by rewrite Hs|]. by eexists.
Defined.

(** ** The older server *)

Lemma legacy_is_relayed type :
  type ≠ "udp_endpoint" → Legacy.is_relayed type = is_relayed type.
Proof.
  intros Hne. unfold Legacy.is_relayed, is_relayed.
  apply bool_decide_ext. rewrite !elem_of_cons, !elem_of_nil. tauto.
Qed.

(** X20: the two servers treat every signalling message alike, except
    the type udp_endpoint: the newer server relays it like an offer,
    the older one drops it without answer as an unknown type. *)
Theorem legacy_agrees st connId data :
  (d_type data ≠ "udp_endpoint" →
     Legacy.handleSignal connId data st = handleSignal connId data st) ∧
  (d_type data = "udp_endpoint" →
     Legacy.handleSignal connId data st = (st, []) ∧
     handleSignal connId data st = (st, forwardSignal connId data st)).
Proof.
  split.
  - intros Hne. unfold Legacy.handleSignal, handleSignal.
    by rewrite legacy_is_relayed.
  - intros Heq. unfold Legacy.handleSignal, handleSignal.
    by rewrite Heq.
Qed.

(** ** Looking a session up *)

(** X21: in a reachable state the two lookup routes answer 404 exactly
    for the codes that name no session; for a stored session they
    report the requested code, the length of the client list and the
    status, and [hostConnected: true] only for an active session.  An
    active session is reported with [hostConnected: false] only when
    its host connection has the empty id. *)
Theorem sessionInfo_reachable st code :
  reachable st →
  match sessions st !! code with
  | None =>
      sessionInfo code st = Failed 404 "Session not found" ∧
      joinSession (Some code) st
        = Failed 404 "Session not found. Please check the code."
  | Some s =>
      ∃ d, sessionInfo code st = Found d ∧
           sd_code d = code ∧
           sd_clientCount d = length (s_clients s) ∧
           sd_status d = s_status s ∧
           (sd_hostConnected d = true → sd_status d = Active) ∧
           (sd_hostConnected d = false →
              sd_status d = Active → s_host s = Some "") ∧
           joinSession (Some code) st =
             Found (mkSummary code (sd_bridgeName d) (sd_sources d)
                              (sd_hostConnected d))
  end.
Proof.
  intros Hst. unfold sessionInfo, joinSession, getSession.
  change (Some code ≫= _) with (sessions st !! code).
  destruct (sessions st !! code) as [s|] eqn:Hs; [|done].
  destruct (reachable_sessions_ok _ Hst _ _ Hs) as (Hcode & _ & Hstatus).
  eexists. split; [reflexivity|]. simpl. rewrite Hcode.
  repeat split; try done.
  - intros Hhost. apply Hstatus.
    destruct (s_host s); [by eexists | done].
  - intros Hhost [h Hh]%Hstatus. rewrite Hh in Hhost |- *. simpl in Hhost.
    by destruct h.
Qed.

Lemma sessionInfo_reachable_witness :
  sessionInfo "AAAAAA"
    (run [ CreateSession None None None zeros 0; WsConnect "0.i";
           WsMessage "" (register "host" "AAAAAA") ] init)
  = Found (mkDetail "AAAAAA" None [] false 0 Active).
Proof.
  pose proof (sessionInfo_reachable
                (run [ CreateSession None None None zeros 0; WsConnect "0.i";
                       WsMessage "" (register "host" "AAAAAA") ] init)
                "AAAAAA" (reachable_run _)) as H.
  destruct H as (d & Hd & _). rewrite Hd. vm_compute in Hd.
  by injection Hd as <-.
Defined.

(** ** Polling *)

Lemma findIndex_None {A} (p : A → bool) l :
  findIndex p l = None → Forall (λ y, p y = false) l.
Proof.
  induction l as [|x l IH]; simpl; [constructor|].
  destruct (p x) eqn:Hx; [done|].
  destruct (findIndex p l); [done|]. intros _. constructor; auto.
Qed.

Lemma findIndex_Some {A} (p : A → bool) l i :
  findIndex p l = Some i →
  ∃ l1 x l2, l = l1 ++ x :: l2 ∧ length l1 = i ∧ p x = true ∧
             Forall (λ y, p y = false) l1.
Proof.
  revert i. induction l as [|x l IH]; simpl; [done|]. intros i.
  destruct (p x) eqn:Hx.
  - intros [= <-]. by exists [], x, l.
  - destruct (findIndex p l) as [j|]; [|done]. intros [= <-].
    destruct (IH j eq_refl) as (l1 & y & l2 & -> & Hlen & Hy & Hl1).
    exists (x :: l1), y, l2. simpl. repeat split; auto.
Qed.

Lemma insert_middle {A} (l1 : list A) x l2 e :
  <[length l1 := e]> (l1 ++ x :: l2) = l1 ++ e :: l2.
Proof. induction l1 as [|y l1 IH]; simpl; [done|]. by rewrite IH. Qed.

(** The shape of the list after the upsert. *)
Lemma upsertEndpoint_shape e l :
  NoDup (map ce_peerId l) →
  (Forall (λ c, ce_peerId c ≠ ce_peerId e) l ∧
   upsertEndpoint e (Some l) = l ++ [e]) ∨
  (∃ l1 x l2, l = l1 ++ x :: l2 ∧ ce_peerId x = ce_peerId e ∧
              Forall (λ c, ce_peerId c ≠ ce_peerId e) (l1 ++ l2) ∧
              upsertEndpoint e (Some l) = l1 ++ e :: l2).
Proof.
  intros Hnd. unfold upsertEndpoint.
  destruct (findIndex _ l) as [i|] eqn:Hfind.
  - right. apply findIndex_Some in Hfind
      as (l1 & x & l2 & -> & <- & Hx%String.eqb_eq & Hl1).
    exists l1, x, l2. split; [done|]. split; [done|].
    split; [|apply insert_middle].
    rewrite map_app in Hnd. simpl in Hnd.
    apply NoDup_app in Hnd as (_ & Hdisj & [Hx2 _]%NoDup_cons).
    apply Forall_app. split.
    + eapply Forall_impl; [exact Hl1|]. intros c Hc. simpl in Hc.
      by apply String.eqb_neq.
    + apply Forall_forall. intros c Hc Heq. apply Hx2.
      rewrite Hx, <- Heq. apply list_elem_of_In, in_map.
      by apply list_elem_of_In.
  - left. split; [|done]. apply findIndex_None in Hfind.
    eapply Forall_impl; [exact Hfind|]. intros c Hc. simpl in Hc.
    by apply String.eqb_neq.
Qed.

Lemma upsertEndpoint_NoDup e l :
  match l with Some l => NoDup (map ce_peerId l) | None => True end →
  NoDup (map ce_peerId (upsertEndpoint e l)).
Proof.
  destruct l as [l|]; [|intros _; apply NoDup_singleton].
  intros Hnd.
  destruct (upsertEndpoint_shape e l Hnd)
    as [[Hfresh ->]|(l1 & x & l2 & -> & Hx & Hrest & ->)].
  - rewrite map_app. simpl. apply NoDup_app. split; [done|].
    split; [|apply NoDup_singleton].
    intros p Hp ->%list_elem_of_singleton.
    apply list_elem_of_In, in_map_iff in Hp as (c & Hc & Hin).
    apply list_elem_of_In in Hin.
    by apply (proj1 (Forall_forall _ _) Hfresh) in Hin.
  - rewrite map_app in Hnd |- *. simpl in *. by rewrite <- Hx.
Qed.

Lemma poll_step_ok st polled e :
  map_Forall (fields_ok st) polled →
  map_Forall (fields_ok st) (poll_step st polled e).
Proof.
  intros Hok.
  assert (∀ code, match pf_clientEndpoints (fields_of polled code) with
                  | Some l => NoDup (map ce_peerId l)
                  | None => True
                  end) as Hold.
  { intros code. unfold fields_of.
    destruct (polled !! code) as [f|] eqn:Hf; [|done]. apply (Hok _ _ Hf). }
  destruct e; simpl.
  - unfold updateHostEndpoint.
    destruct (sessions st !! code) as [s|] eqn:Hs; [|done].
    apply map_Forall_insert_2; [|done]. split; [by rewrite Hs|]. apply Hold.
  - unfold updateClientEndpoint.
    destruct (sessions st !! code) as [s|] eqn:Hs; [|done].
    apply map_Forall_insert_2; [|done]. split; [by rewrite Hs|].
    apply upsertEndpoint_NoDup, Hold.
Qed.

Lemma poll_run_ok st es : map_Forall (fields_ok st) (poll_run st es).
Proof.
  unfold poll_run.
  assert (map_Forall (fields_ok st) (∅ : gmap string PollFields)) as H
    by apply map_Forall_empty.
  revert H. generalize (∅ : gmap string PollFields).
  induction es as [|e es IH]; intros polled Hok; simpl; [done|].
  by apply IH, poll_step_ok.
Qed.



Lemma fields_of_insert polled code f :
  fields_of (<[code := f]> polled) code = f.
Proof. unfold fields_of. by rewrite lookup_insert_eq. Qed.

(** X23: after the host has posted its endpoint at time [t], the client
    poll at time [t'] reports the host as available and hands the
    endpoint out exactly when [t' - t < 30000]; otherwise it reports
    [hostAvailable: false] and no endpoint.  The host poll hands the
    stored endpoint out whatever its age.  The list of other clients is
    not affected. *)
Theorem hostEndpoint_roundtrip st polled code s ip port peer t t' :
  sessions st !! code = Some s →
  let polled' := (updateHostEndpoint code ip port peer t st polled).1 in
  (∃ cp, clientPoll code t' st polled' = Found cp ∧
         cp_hostAvailable cp = Some (bool_decide (t' - t < 30000)) ∧
         cp_hostEndpoint cp = (if bool_decide (t' - t < 30000)
                               then Some (ip, port, peer) else None) ∧
         (∀ cp0, clientPoll code t' st polled = Found cp0 →
                 cp_otherClients cp = cp_otherClients cp0)) ∧
  (∃ clients,
     hostPoll code t' st polled'
       = Found (clients, Some (mkUdpEndpoint ip port peer t))).
Proof.
  intros Hs polled'.
  assert (polled' = <[code := mkPollFields
                        (Some (mkUdpEndpoint ip port peer t))
                        (pf_clientEndpoints (fields_of polled code))]> polled)
    as -> by (unfold polled', updateHostEndpoint; by rewrite Hs).
  unfold clientPoll, hostPoll. rewrite Hs, fields_of_insert. split.
  - eexists. split; [reflexivity|]. cbn. split; [done|]. split; [done|].
    by intros cp0 [= <-].
  - by eexists.
Qed.

Lemma hostEndpoint_roundtrip_witness :
  let st := run star_trace init in
  let polled :=
    (updateHostEndpoint "AAAAAA" (Some "203.0.113.5") (Some 40000) "h"
                        1000 st ∅).1 in
  cp_hostEndpoint <$>
    match clientPoll "AAAAAA" 30999 st polled with
    | Found cp => Some cp | Failed _ _ => None end
    = Some (Some (Some "203.0.113.5", Some 40000, "h")) ∧
  cp_hostEndpoint <$>
    match clientPoll "AAAAAA" 31000 st polled with
    | Found cp => Some cp | Failed _ _ => None end
    = Some None.
Proof.
  intros st polled. split.
  - destruct (hostEndpoint_roundtrip st ∅ "AAAAAA"
                (mkSession "AAAAAA" (Some "h1") (Some "Studio A") []
                           (Some "host01") ["cli001"; "cli002"] 0 Active)
                (Some "203.0.113.5") (Some 40000) "h" 1000 30999 eq_refl)
      as [(cp & Hcp & _ & Hep & _) _].
    fold polled in Hcp. rewrite Hcp. simpl. by rewrite Hep.
  - destruct (hostEndpoint_roundtrip st ∅ "AAAAAA"
                (mkSession "AAAAAA" (Some "h1") (Some "Studio A") []
                           (Some "host01") ["cli001"; "cli002"] 0 Active)
                (Some "203.0.113.5") (Some 40000) "h" 1000 31000 eq_refl)
      as [(cp & Hcp & _ & Hep & _) _].
    fold polled in Hcp. rewrite Hcp. simpl. by rewrite Hep.
Defined.

Lemma filter_peer_none p (l : list ClientEndpoint) (view : ClientEndpoint → PolledClient) :
  (∀ c, pc_peerId (view c) = ce_peerId c) →
  Forall (λ c, ce_peerId c ≠ p) l →
  List.filter (λ c, String.eqb (pc_peerId c) p) (map view l) = [] ∧
  List.filter (λ c, negb (String.eqb (pc_peerId c) p)) (map view l)
    = map view l.
Proof.
  intros Hview. induction 1 as [|c l Hc _ [IH1 IH2]]; simpl; [done|].
  rewrite Hview. apply String.eqb_neq in Hc as ->. simpl.
  by rewrite IH1, IH2.
Qed.

(** X24: after a client has posted its endpoint at time [t], the host
    poll at time [t'] lists that peer id exactly once, with the posted
    name, address and port and with [connected] telling whether
    [t' - t < 30000]; the entries of the other peers and the host
    endpoint are as before, and the list has grown by one exactly when
    the peer id was new. *)
Theorem clientEndpoint_roundtrip st es code s ip port p name t t' :
  sessions st !! code = Some s →
  let polled := poll_run st es in
  let polled' := (updateClientEndpoint code ip port p name t st polled).1 in
  let is_p := λ c, String.eqb (pc_peerId c) p in
  ∃ old clients he,
    hostPoll code t' st polled = Found (old, he) ∧
    hostPoll code t' st polled' = Found (clients, he) ∧
    List.filter is_p clients
      = [mkPolledClient p name ip port (bool_decide (t' - t < 30000))] ∧
    List.filter (λ c, negb (is_p c)) clients
      = List.filter (λ c, negb (is_p c)) old ∧
    length clients = (if existsb is_p old
                      then length old else S (length old)).
Proof.
  intros Hs polled polled' is_p. subst is_p. cbv beta.
  set (e := mkClientEndpoint ip port p name t).
  set (f := fields_of polled code).
  set (view := λ c, mkPolledClient (ce_peerId c) (ce_clientName c)
                      (ce_publicIP c) (ce_publicPort c)
                      (fresh t' (ce_updatedAt c))).
  assert (polled' = <[code := mkPollFields (pf_hostEndpoint f)
                        (Some (upsertEndpoint e (pf_clientEndpoints f)))]>
                      polled)
    as -> by (unfold polled', updateClientEndpoint; by rewrite Hs).
  unfold hostPoll. rewrite Hs, fields_of_insert. fold f.
  cbn [pf_clientEndpoints pf_hostEndpoint default].
  exists (map view (default [] (pf_clientEndpoints f))),
         (map view (upsertEndpoint e (pf_clientEndpoints f))),
         (pf_hostEndpoint f).
  split; [done|]. split; [done|].
  assert (match pf_clientEndpoints f with
          | Some l => NoDup (map ce_peerId l)
          | None => True
          end) as Hnd.
  { unfold f, fields_of.
    destruct (polled !! code) as [f0|] eqn:Hf0; [|done].
    apply (poll_run_ok st es _ _ Hf0). }
  assert (∀ c, pc_peerId (view c) = ce_peerId c) as Hview by done.
  assert (view e = mkPolledClient p name ip port
                     (bool_decide (t' - t < 30000))) as He by done.
  assert (String.eqb (pc_peerId (view e)) p = true) as Hep
    by apply String.eqb_refl.
  destruct (pf_clientEndpoints f) as [l|]; cycle 1.
  { change (upsertEndpoint e None) with [e].
    cbn [map List.filter default length existsb]. rewrite Hep.
    cbn [negb]. by rewrite He. }
  change (default [] (Some l)) with l.
  destruct (upsertEndpoint_shape e l Hnd)
    as [[Hfresh ->]|(l1 & x & l2 & -> & Hx & Hrest & ->)].
  - destruct (filter_peer_none p l view Hview Hfresh) as [H1 H2].
    rewrite map_app, !List.filter_app, H1, H2.
    cbn [map List.filter]. rewrite Hep. cbn [negb app].
    rewrite app_nil_r.
    split; [by rewrite He|]. split; [done|].
    rewrite length_app. cbn [length].
    assert (existsb (λ c, String.eqb (pc_peerId c) p) (map view l) = false)
      as ->.
    { apply not_true_is_false. intros (c & Hc & Hp)%existsb_exists.
      assert (In c (List.filter (λ c, String.eqb (pc_peerId c) p)
                                (map view l))) as Hin
        by (by apply filter_In).
      by rewrite H1 in Hin. }
    lia.
  - apply Forall_app in Hrest as [Hl1 Hl2].
    destruct (filter_peer_none p l1 view Hview Hl1) as [H1 H2].
    destruct (filter_peer_none p l2 view Hview Hl2) as [H3 H4].
    assert (String.eqb (pc_peerId (view x)) p = true) as Hxp.
    { rewrite Hview, Hx. apply String.eqb_refl. }
    rewrite !map_app, !List.filter_app. cbn [map List.filter].
    rewrite H1, H2, H3, H4, Hep, Hxp. cbn [negb app].
    split; [by rewrite He|]. split; [done|].
    rewrite !length_app. cbn [length].
    assert (existsb (λ c, String.eqb (pc_peerId c) p)
                    (map view l1 ++ view x :: map view l2) = true)
      as ->; [|done].
    apply existsb_exists. exists (view x). split; [|done].
    apply in_or_app. right. by left.
Qed.

Lemma clientEndpoint_roundtrip_witness :
  let st := run star_trace init in
  let es := [ ClientEndpointUpdate "AAAAAA" (Some "198.51.100.7") (Some 5000)
                                   "p1" (Some "Viewer") 1000 ] in
  let polled' :=
    (updateClientEndpoint "AAAAAA" (Some "198.51.100.7") (Some 5001) "p1"
                          (Some "Viewer") 2000 st (poll_run st es)).1 in
  hostPoll "AAAAAA" 40000 st polled' =
    Found ([mkPolledClient "p1" (Some "Viewer") (Some "198.51.100.7")
                           (Some 5001) false], None).
Proof.
  intros st es polled'.
  destruct (clientEndpoint_roundtrip st es "AAAAAA"
              (mkSession "AAAAAA" (Some "h1") (Some "Studio A") []
                         (Some "host01") ["cli001"; "cli002"] 0 Active)
              (Some "198.51.100.7") (Some 5001) "p1" (Some "Viewer")
              2000 40000 eq_refl)
    as (old & clients & he & _ & Hnew & _).
  fold polled' in Hnew. rewrite Hnew. vm_compute in Hnew.
  by injection Hnew as <- <-.
Defined.

(** ** Log store *)

Lemma or_default_nonempty x d : d ≠ "" → or_default x d ≠ "".
Proof.
  intros Hd. unfold or_default. destruct x as [s|]; simpl; [|done].
  destruct (Js.truthy_str s) eqn:Hs; simpl; [|done].
  by apply truthy_str_spec.
Qed.

(** X25: an upload without log contents (missing or empty) answers 400
    and stores nothing.  Any other upload answers with a six-symbol id
    under which the log can be fetched afterwards, with the uploaded
    contents, the upload time and a non-empty device name; every other
    id fetches what it fetched before.  The id is not checked against
    the store: a log already stored under it is replaced. *)
Theorem uploadLog_roundtrip req isoNow rnd now logs :
  let res := uploadLog req isoNow rnd now logs in
  let logId := generateCode rnd in
  (Js.truthy (lu_logContents req) = false →
     res = (logs, Failed 400 "No log contents provided")) ∧
  (∀ contents,
     lu_logContents req = Some contents → contents ≠ "" →
     res.2 = Found logId ∧ valid_code logId ∧
     (∃ entry, getLog logId res.1 = Found entry ∧
               l_logId entry = logId ∧
               l_logContents entry = contents ∧
               l_uploadedAt entry = now ∧
               l_deviceName entry ≠ "") ∧
     (∀ other, other ≠ logId → getLog other res.1 = getLog other logs)).
Proof.
  intros res logId. unfold res, uploadLog. split.
  - by intros ->.
  - intros contents Hc Hne. rewrite Hc. simpl.
    apply truthy_str_spec in Hne as ->. simpl.
    split; [done|]. split; [apply generateCode_valid|]. split.
    + unfold getLog. rewrite lookup_insert_eq. eexists.
      split; [reflexivity|]. simpl. repeat split.
      by apply or_default_nonempty.
    + intros other Hother. unfold getLog. by rewrite lookup_insert_ne.
Qed.

(** X26: the log sweep keeps a log exactly when it is at most
    86400000 ms old; a removed log is answered with 404. *)
Theorem logSweep_retention logs now logId :
  getLog logId (logSweep now logs) =
    match logs !! logId with
    | Some log => if bool_decide (now - l_uploadedAt log ≤ 86400000)
                  then Found log else Failed 404 "Log not found"
    | None => Failed 404 "Log not found"
    end.
Proof.
  unfold getLog, logSweep.
  destruct (logs !! logId) as [log|] eqn:Hlog.
  - case_bool_decide.
    + erewrite (proj2 (map_lookup_filter_Some _ _ _ _)); [done|].
      split; [done|]. simpl. change LOG_TTL_MS with 86400000. lia.
    + rewrite (proj2 (map_lookup_filter_None _ _ _)); [done|].
      right. intros log' Hlog'. simpl. rewrite Hlog in Hlog'.
      injection Hlog' as <-. change LOG_TTL_MS with 86400000. lia.
  - rewrite (proj2 (map_lookup_filter_None _ _ _)); [done | by left].
Qed.

(** ** The status that is never set *)

Lemma never_closed_step e st :
  map_Forall (λ _ s, s_status s ≠ Closed) (sessions st) →
  map_Forall (λ _ s, s_status s ≠ Closed) (sessions (step e st)).
Proof.
  intros Hok. destruct e; simpl.
  - by apply map_Forall_insert_2.
  - intros c s [Hs _]%map_lookup_filter_Some. by apply (Hok _ _ Hs).
  - unfold registerHost. repeat case_match; done.
  - unfold heartbeat. repeat case_match; done.
  - done.
  - done.
  - unfold requestConnect. repeat case_match; done.
  - unfold acknowledge. repeat case_match; done.
  - done.
  - unfold handleSignal.
    repeat case_match; simpl; try done;
      match goal with
      | H : getSession _ _ = Some _ |- _ =>
          apply getSession_Some in H as (? & [= <-] & H); simpl in H
      end;
      (apply map_Forall_insert_2; [|done]); simpl;
      first [ done | by eapply (Hok _ _) ].
  - unfold handleDisconnect.
    repeat case_match; simpl; try done;
      (apply map_Forall_insert_2; [|done]); simpl;
      first [ done | by eapply (Hok _ _) ].
Qed.

(** X27: the status closed is declared but never assigned: in every
    reachable state each session is waiting or active. *)
Theorem reachable_never_closed st c s :
  reachable st → sessions st !! c = Some s →
  s_status s = Waiting ∨ s_status s = Active.
Proof.
  intros Hst Hs.
  assert (map_Forall (λ _ s, s_status s ≠ Closed) (sessions st)) as Hall.
  { clear Hs. induction Hst as [|st e _ IH]; [|by apply never_closed_step].
    simpl. apply map_Forall_empty. }
  specialize (Hall _ _ Hs). simpl in Hall.
  destruct (s_status s); auto. done.
Qed.

Lemma reachable_never_closed_witness :
  reachable (run orphaned_host_trace init) ∧
  (Active = Waiting ∨ Active = Active).
Proof.
  split; [apply reachable_run|].
  exact (reachable_never_closed (run orphaned_host_trace init) "AAAAAA"
           (mkSession "AAAAAA" (Some "h1") (Some "Studio A") []
                      (Some "fghijk") [] 0 Active)
           (reachable_run orphaned_host_trace) eq_refl).
Defined.

(** X28: only the sweep removes a session.  After any other event a
    stored session is still stored, also when its host or its last
    client has closed, and it keeps its creation time, code, host id,
    bridge name and sources, unless the event is a createSession that
    drew the same code and replaced it.  No handler renews the creation
    time: the 30 minutes count from creation, not from the last use. *)
Theorem sessions_persist e st c s :
  (∀ now, e ≠ SessionSweep now) →
  sessions st !! c = Some s →
  ∃ s', sessions (step e st) !! c = Some s' ∧
        ((∃ hostId bridgeName sources rnd now,
            e = CreateSession hostId bridgeName sources rnd now ∧
            generateCode rnd = c) ∨
         (s_createdAt s' = s_createdAt s ∧ s_code s' = s_code s ∧
          s_hostId s' = s_hostId s ∧ s_bridgeName s' = s_bridgeName s ∧
          s_sources s' = s_sources s)).
Proof.
  intros Hsweep Hs.
  pose (P := λ m : gmap string Session,
    ∃ s', m !! c = Some s' ∧
          ((∃ hostId bridgeName sources rnd now,
              e = CreateSession hostId bridgeName sources rnd now ∧
              generateCode rnd = c) ∨
           (s_createdAt s' = s_createdAt s ∧ s_code s' = s_code s ∧
            s_hostId s' = s_hostId s ∧ s_bridgeName s' = s_bridgeName s ∧
            s_sources s' = s_sources s))).
  assert (P (sessions st)) as Hsame.
  { exists s. split; [done|]. by right. }
  assert (∀ c0 s0 f,
            sessions st !! c0 = Some s0 →
            (∀ x, s_createdAt (f x) = s_createdAt x ∧ s_code (f x) = s_code x ∧
                  s_hostId (f x) = s_hostId x ∧
                  s_bridgeName (f x) = s_bridgeName x ∧
                  s_sources (f x) = s_sources x) →
            P (<[c0 := f s0]> (sessions st))) as Hupd.
  { intros c0 s0 f Hs0 Hf. unfold P.
    destruct (decide (c0 = c)) as [->|Hne].
    - rewrite Hs in Hs0. injection Hs0 as <-.
      exists (f s). rewrite lookup_insert_eq. split; [done|]. right. apply Hf.
    - exists s. rewrite lookup_insert_ne by done. split; [done|]. by right. }
  change (P (sessions (step e st))).
  destruct e; simpl.
  - unfold P. destruct (decide (generateCode rnd = c)) as [Heq|Hne].
    + rewrite Heq. eexists. rewrite lookup_insert_eq. split; [done|].
      left. by exists hostId, bridgeName, sources, rnd, now.
    + exists s. rewrite lookup_insert_ne by done. split; [done|]. by right.
  - by destruct (Hsweep now).
  - unfold registerHost. repeat case_match; exact Hsame.
  - unfold heartbeat. repeat case_match; exact Hsame.
  - exact Hsame.
  - exact Hsame.
  - unfold requestConnect. repeat case_match; exact Hsame.
  - unfold acknowledge. repeat case_match; exact Hsame.
  - exact Hsame.
  - unfold handleSignal.
    repeat case_match; simpl; try exact Hsame;
      match goal with
      | H : getSession _ _ = Some _ |- _ =>
          apply getSession_Some in H as (? & [= <-] & H); simpl in H
      end.
    + by apply (Hupd _ _ (with_host (Some connId) Active)).
    + by apply (Hupd _ _ (with_clients _)).
  - unfold handleDisconnect.
    repeat case_match; simpl; try exact Hsame.
    + by apply (Hupd _ _ (with_host None Waiting)).
    + by apply (Hupd _ _ (with_clients _)).
Qed.

Lemma sessions_persist_witness :
  is_Some (sessions (step (WsClose "host01") (run star_trace init))
             !! "AAAAAA").
Proof.
  destruct (sessions_persist (WsClose "host01") (run star_trace init)
              "AAAAAA"
              (mkSession "AAAAAA" (Some "h1") (Some "Studio A") []
                         (Some "host01") ["cli001"; "cli002"] 0 Active)
              ltac:(discriminate) eq_refl) as (s' & Hs' & _).
  by exists s'.
Defined.
